(** * The UID monitor processor of trireme and its context store

    A shallow embedding of [uidmonitor.UIDProcessor] (lifecycle events
    Create / Start / Stop / Destroy / Pause / ReSync) and of
    [contextstore.store] (the file-backed store of context records),
    together with the properties of the lifecycle state machine, of its
    two membership caches and of the resynchronisation pass.

    Layout, following the Go packages:
    - [strconv], [strings], [regexp]: the library functions the processor
      calls on strings;
    - [policy], [monitor], [rpcmonitor], [collector]: the data carried by
      events;
    - [cache]: the two in-memory indices;
    - [os] and [contextstore]: the directory tree of the store and the
      store itself;
    - [uidmonitor]: the processor;
    - [cnimonitor]: the processor of CNI events, over a store of its own;
    - [systemdutil]: the parsing of the service ports of the command
      line. *)

From Stdlib Require Import ZArith NArith Ascii String List Bool.
From stdpp Require Import base option list gmap sets strings sorting pretty.

Local Open Scope string_scope.
Local Open Scope list_scope.
Local Open Scope Z_scope.

(** Go's [error]: a value carrying a message, [nil] being [None] of
    [option error]. *)
Inductive error := New (msg : string).

#[global] Instance error_eq_dec : EqDecision error.
Proof. solve_decision. Defined.

(** A Go result [(v, err)]. *)
Inductive result (A : Type) :=
| Ok (v : A)
| Err (e : error).
Arguments Ok {A} v.
Arguments Err {A} e.

(* ------------------------------------------------------------------ *)
(** ** Library functions on strings *)

Module ascii.

Definition between (lo hi c : ascii) : bool :=
  (N.leb (N_of_ascii lo) (N_of_ascii c)
   && N.leb (N_of_ascii c) (N_of_ascii hi))%bool.

Definition is_digit (c : ascii) : bool := between "0" "9" c.

(** The class [[a-zA-Z0-9_]]. *)
Definition is_word (c : ascii) : bool :=
  (between "a" "z" c || between "A" "Z" c || is_digit c
   || Ascii.eqb c "_")%bool.

Definition digit_val (c : ascii) : Z :=
  Z.of_N (N_of_ascii c) - Z.of_N (N_of_ascii "0").

Definition newline : ascii := ascii_of_nat 10.

End ascii.

Module strconv.

(** Value of a string of decimal digits; [None] on any other
    character. The empty string is rejected by the callers. *)
Fixpoint digits (acc : Z) (s : string) : option Z :=
  match s with
  | EmptyString => Some acc
  | String c s' =>
      if ascii.is_digit c then digits (10 * acc + ascii.digit_val c) s'
      else None
  end.

Definition syntax_error (fn s : string) : error :=
  New ("strconv." +:+ fn +:+ ": parsing " +:+ s +:+ ": invalid syntax").
Definition range_error (fn s : string) : error :=
  New ("strconv." +:+ fn +:+ ": parsing " +:+ s +:+ ": value out of range").

(** [strconv.ParseUint(s, 10, 32)]: digits only, no sign, at least one
    digit, value below [2^32]. *)
Definition ParseUint32 (s : string) : result Z :=
  match s with
  | EmptyString => Err (syntax_error "ParseUint" s)
  | _ =>
      match digits 0 s with
      | None => Err (syntax_error "ParseUint" s)
      | Some n =>
          if n <? 2 ^ 32 then Ok n else Err (range_error "ParseUint" s)
      end
  end.

(** [strconv.Atoi(s)] on a 64-bit platform: an optional sign, at least
    one digit, value in the range of [int]. *)
Definition Atoi (s : string) : result Z :=
  let '(neg, body) :=
    match s with
    | String "-" s' => (true, s')
    | String "+" s' => (false, s')
    | _ => (false, s)
    end in
  match body with
  | EmptyString => Err (syntax_error "Atoi" s)
  | _ =>
      match digits 0 body with
      | None => Err (syntax_error "Atoi" s)
      | Some n =>
          let v := if neg then - n else n in
          if (- 2 ^ 63 <=? v) && (v <? 2 ^ 63) then Ok v
          else Err (range_error "Atoi" s)
      end
  end.

End strconv.

Module strings.

(** [strings.LastIndex(s, substr)]: the index of the last occurrence of
    [substr] in [s], or [-1]. *)
Fixpoint LastIndex_from (substr s : string) (i last : Z) : Z :=
  let last' := if String.prefix substr s then i else last in
  match s with
  | EmptyString => last'
  | String _ s' => LastIndex_from substr s' (i + 1) last'
  end.

Definition LastIndex (s substr : string) : Z :=
  LastIndex_from substr s 0 (-1).

(** The slice expression [s[k:]]. *)
Definition slice_from (s : string) (k : Z) : string :=
  String.substring (Z.to_nat k) (String.length s - Z.to_nat k) s.

Definition mem (c : ascii) (cutset : string) : bool :=
  existsb (Ascii.eqb c) (list_ascii_of_string cutset).

(** [strings.TrimLeft(s, cutset)]. *)
Fixpoint TrimLeft (s cutset : string) : string :=
  match s with
  | EmptyString => EmptyString
  | String c s' => if mem c cutset then TrimLeft s' cutset else s
  end.

(** Removal of a literal prefix. *)
Fixpoint strip_prefix (p s : string) : option string :=
  match p, s with
  | EmptyString, _ => Some s
  | String a p', String b s' =>
      if Ascii.eqb a b then strip_prefix p' s' else None
  | String _ _, EmptyString => None
  end.

(** No byte of [s] is a slash. *)
Definition slashless (s : string) : bool :=
  forallb (fun c => negb (Ascii.eqb c "/")) (list_ascii_of_string s).

End strings.

Module regexp.

(** The expression [.{0,11}$]: at most eleven characters, none of them a
    newline. Characters are counted as bytes, which is what Go counts on
    ASCII input. *)
Definition dots_0_11 (s : string) : bool :=
  (Nat.leb (String.length s) 11
   && forallb (fun c => negb (Ascii.eqb c ascii.newline))
        (list_ascii_of_string s))%bool.

(** [regStart]: [^[a-zA-Z0-9_].{0,11}$]. *)
Definition regStart_Match (s : string) : bool :=
  match s with
  | String c rest => (ascii.is_word c && dots_0_11 rest)%bool
  | EmptyString => false
  end.

(** [regStop]: [^/trireme/[a-zA-Z0-9_].{0,11}$]. *)
Definition regStop_Match (s : string) : bool :=
  match strings.strip_prefix "/trireme/" s with
  | Some rest => regStart_Match rest
  | None => false
  end.

End regexp.

(* ------------------------------------------------------------------ *)
(** ** Event data *)

Module policy.

Record OptionsType := {
  CgroupName : string;
  CgroupMark : string;
}.

(** [policy.PURuntime], read through [Options()], [DefaultIPAddress()]
    and [Tags()]. *)
Record PURuntime := {
  Options : OptionsType;
  DefaultIPAddress : string * bool;
  Tags : list string;
}.

(** [policy.Service]: [Protocol] is a [uint8], [Port] a [uint16]. *)
Record Service := {
  Protocol : Z;
  Port : Z;
}.

End policy.

Module monitor.

Inductive Event :=
| EventStart | EventStop | EventCreate | EventDestroy | EventPause.

#[global] Instance Event_eq_dec : EqDecision Event.
Proof. solve_decision. Defined.

End monitor.

Module rpcmonitor.

(** The fields of [rpcmonitor.EventInfo] that the processor reads or
    carries along. *)
Record EventInfo := {
  EventType : monitor.Event;
  PUID : string;
  Name : string;
  Tags : list string;
  PID : string;
  Cgroup : string;
}.

(** The assignment [eventInfo.PID = pid]. *)
Definition set_PID (pid : string) (e : EventInfo) : EventInfo :=
  {| EventType := EventType e; PUID := PUID e; Name := Name e;
     Tags := Tags e; PID := pid; Cgroup := Cgroup e |}.

End rpcmonitor.

Module collector.

Inductive EventKind := ContainerStart.

Record ContainerRecord := {
  ContextID : string;
  IPAddress : string;
  Tags : list string;
  Event : EventKind;
}.

End collector.

#[global] Instance OptionsType_eq_dec : EqDecision policy.OptionsType.
Proof. solve_decision. Defined.
#[global] Instance PURuntime_eq_dec : EqDecision policy.PURuntime.
Proof. solve_decision. Defined.
#[global] Instance EventInfo_eq_dec : EqDecision rpcmonitor.EventInfo.
Proof. solve_decision. Defined.
#[global] Instance EventKind_eq_dec : EqDecision collector.EventKind.
Proof. solve_decision. Defined.
#[global] Instance ContainerRecord_eq_dec : EqDecision collector.ContainerRecord.
Proof. solve_decision. Defined.

(* ------------------------------------------------------------------ *)
(** ** State passing *)

(** A Go method with a receiver whose state it may change: a function
    from the state before to the returned value and the state after. *)
Definition State (S A : Type) : Type := S -> A * S.

#[global] Instance state_ret {S} : MRet (State S) := fun A a s => (a, s).
#[global] Instance state_bind {S} : MBind (State S) :=
  fun A B f m s => let '(a, s') := m s in f a s'.

Definition get {S} : State S S := fun s => (s, s).
Definition modify {S} (f : S -> S) : State S unit := fun s => (tt, f s).

(* ------------------------------------------------------------------ *)
(** ** The cache package *)

Module cache.

(** [cache.Cache] is declared outside the files at hand. The processor
    uses three of its methods and checks the error of each. [Get] and
    [Remove] fail on a key that is absent. On a key that is present
    [Add] either refuses (the old value stays, an error is returned) or
    replaces the value: [add_replaces] selects which, and every result
    below holds for both. *)
Section Cache.
Context {V : Type}.
Variable add_replaces : bool.

Definition Get (u : string) (c : gmap string V) : result V :=
  match c !! u with
  | Some v => Ok v
  | None => Err (New "Item does not exist")
  end.

Definition Add (u : string) (v : V) : State (gmap string V) (option error) :=
  fun c =>
    match c !! u with
    | None => (None, <[u := v]> c)
    | Some _ =>
        if add_replaces then (None, <[u := v]> c)
        else (Some (New "Item exists"), c)
    end.

Definition Remove (u : string) : State (gmap string V) (option error) :=
  fun c =>
    match c !! u with
    | Some _ => (None, delete u c)
    | None => (Some (New "Item does not exist"), c)
    end.

End Cache.

End cache.

(* ------------------------------------------------------------------ *)
(** ** The directory tree under the store *)

Module os.

(** A cleaned absolute path: its components from the root. The tree
    holds what is below the root; the root itself is neither created nor
    removed. No operation fails for lack of permission or space: an
    operation fails only for what the tree holds. *)
Definition Path := list string.

(** Splitting at ["/"]. *)
Fixpoint split_slash (cur : string) (s : string) : list string :=
  match s with
  | EmptyString => [cur]
  | String c s' =>
      if Ascii.eqb c "/" then cur :: split_slash "" s'
      else split_slash (cur +:+ String c "") s'
  end.

(** [filepath.Clean] on an absolute path, one component at a time:
    empty components and ["."] vanish, [".."] climbs (and stays at the
    root). *)
Definition push (p : Path) (c : string) : Path :=
  if decide (c = "" \/ c = ".") then p
  else if decide (c = "..") then removelast p
  else p ++ [c].

(** [filepath.Join(dir, elem)] for a cleaned absolute [dir]. *)
Definition Join (dir : Path) (elem : string) : Path :=
  fold_left push (split_slash "" elem) dir.


(** [child_of p q]: the name [n] when [q] is [p] followed by [n]. *)
Fixpoint child_of (p q : Path) : option string :=
  match p, q with
  | [], [n] => Some n
  | a :: p', b :: q' => if decide (a = b) then child_of p' q' else None
  | _, _ => None
  end.

Definition name_le (a b : string) : Prop := String.leb a b = true.
#[global] Instance name_le_dec : RelDecision name_le.
Proof. intros a b. unfold name_le. apply _. Defined.

Section FS.
(** What a file holds: see [contextstore.Data]. *)
Context {D : Type}.

Record FS := {
  dirs : gset Path;
  files : gmap Path D;
}.

(** [os.Stat] finds something at [p]: the negation of
    [os.IsNotExist(err)]. *)
Definition exists_ (p : Path) (fs : FS) : bool :=
  bool_decide (p ∈ dirs fs \/ is_Some (files fs !! p)).

(** Every prefix of [p], [p] included, the root left out. *)
Definition ancestors (p : Path) : list Path :=
  map (fun n => take n p) (seq 1 (length p)).

(** [os.MkdirAll]: fails when [p] or a directory above it is a file. *)
Definition MkdirAll (p : Path) : State FS (option error) :=
  fun fs =>
    if bool_decide (Exists (fun q => is_Some (files fs !! q)) (ancestors p))
    then (Some (New "mkdir: not a directory"), fs)
    else (None, {| dirs := dirs fs ∪ list_to_set (ancestors p);
                   files := files fs |}).

(** [ioutil.WriteFile]: the directory must be there, the name must not
    be a directory. *)
Definition WriteFile (p : Path) (data : D) : State FS (option error) :=
  fun fs =>
    if bool_decide (removelast p = [] \/ removelast p ∈ dirs fs)
    then
      if bool_decide (p ∈ dirs fs)
      then (Some (New "open: is a directory"), fs)
      else (None, {| dirs := dirs fs; files := <[p := data]> (files fs) |})
    else (Some (New "open: no such file or directory"), fs).

(** [ioutil.ReadFile]. *)
Definition ReadFile (p : Path) (fs : FS) : result D :=
  match files fs !! p with
  | Some d => Ok d
  | None => Err (New "open: no such file or directory")
  end.

(** [os.RemoveAll]: [p] and everything below it. *)
Definition RemoveAll (p : Path) : State FS (option error) :=
  fun fs =>
    (None, {| dirs := filter (fun q => ~ p `prefix_of` q) (dirs fs);
              files := filter (fun kv => ~ p `prefix_of` kv.1) (files fs) |}).

(** [os.Stat] finds a directory. The root is always there. *)
Definition is_dir (p : Path) (fs : FS) : bool :=
  bool_decide (p = [] \/ p ∈ dirs fs).

(** The names directly under [p], sorted as [ioutil.ReadDir] sorts
    them. *)
Definition children (p : Path) (fs : FS) : gset string :=
  set_omap (child_of p) (dirs fs ∪ dom (files fs)).

Definition ReadDir (p : Path) (fs : FS) : result (list string) :=
  if is_dir p fs
  then Ok (merge_sort name_le (elements (children p fs)))
  else Err (New "open: no such file or directory").

End FS.
Arguments FS D : clear implicits.

End os.

(* ------------------------------------------------------------------ *)
(** ** The context store *)

Module contextstore.

(** The bytes of a stored file: either the encoding [json.Marshal]
    gives a record, which [json.Unmarshal] decodes to that record, or
    bytes that do not decode. *)
Inductive Data (T : Type) :=
| Json (v : T)
| Invalid (raw : string).
Arguments Json {T} v.
Arguments Invalid {T} raw.

Definition eventInfoFile : string := "eventInfo.data".

Section Store.
Context {T : Type}.
(** The field [storebasePath] of [store]. *)
Variable storebasePath : string.

Definition json_Marshal (v : T) : Data T := Json v.

Definition json_Unmarshal (data : Data T) : result T :=
  match data with
  | Json v => Ok v
  | Invalid _ => Err (New "invalid character looking for beginning of value")
  end.

(** [filepath.Join(s.storebasePath, contextID)]. *)
Definition folder_of (contextID : string) : os.Path :=
  os.Join (os.Join [] storebasePath) contextID.

Definition StoreContext (contextID : string) (eventInfo : T)
  : State (os.FS (Data T)) (option error) :=
  let folder := folder_of contextID in
  fs ← get;
  err ← (if os.exists_ folder fs then mret None else os.MkdirAll folder);
  match err with
  | Some err => mret (Some err)
  | None =>
      let data := json_Marshal eventInfo in
      os.WriteFile (os.Join folder eventInfoFile) data
  end.

Definition RemoveContext (contextID : string)
  : State (os.FS (Data T)) (option error) :=
  let folder := folder_of contextID in
  fs ← get;
  if os.exists_ folder fs then os.RemoveAll folder
  else mret (Some (New ("Unknown ContextID " +:+ contextID))).

Definition GetContextInfo (contextID : string)
  : State (os.FS (Data T)) (result T) :=
  let folder := folder_of contextID in
  fs ← get;
  if os.exists_ folder fs then
    match os.ReadFile (os.Join folder eventInfoFile) fs with
    | Err (New msg) =>
        mret (Err (New ("Unable to retrieve context from store " +:+ msg)))
    | Ok data =>
        match json_Unmarshal data with
        | Err err =>
            rerr ← RemoveContext contextID;
            match rerr with
            | Some (New msg) =>
                mret (Err (New ("Failed to remove invalide context for "
                                +:+ msg)))
            | None => mret (Err err)
            end
        | Ok v => mret (Ok v)
        end
    end
  else mret (Err (New ("Unknown ContextID " +:+ contextID))).

(** [WalkStore]: what the returned channel delivers, in order: the
    names under the base path, then the empty string. *)
Definition WalkStore (fs : os.FS (Data T)) : result (list string) :=
  match os.ReadDir (os.Join [] storebasePath) fs with
  | Err _ => Err (New "Store is empty")
  | Ok files => Ok (files ++ [""])
  end.



End Store.

End contextstore.

(* ------------------------------------------------------------------ *)
(** ** The collaborators *)

(** The processor talks to four collaborators through Go interfaces. Each
    is a class over the type [E] of whatever state stands behind them
    (the kernel's cgroup tree, the enforcer, ...): a method takes that
    state and returns its result with the state after. Nothing is assumed
    about what the methods do. *)

Module cgnetcls.

Class Cgroupnetcls (E : Type) := {
  Creategroup : string -> State E (option error);
  AssignMark : string -> Z -> State E (option error);
  AddProcess : string -> Z -> State E (option error);
  DeleteCgroup : string -> State E (option error);
  Deletebasepath : string -> State E bool;
  (** The package-level readers of the cgroup tree. *)
  GetCgroupList : E -> list string;
  ListCgroupProcesses : string -> E -> list string * option error;
  GetAssignedMarkVal : string -> E -> string;
}.

End cgnetcls.

Class ProcessingUnitsHandler (E : Type) := {
  SetPURuntime : string -> policy.PURuntime -> State E (option error);
  HandlePUEvent : string -> monitor.Event -> State E (option error);
}.

Class RPCMetadataExtractor (E : Type) := {
  metadataExtractor : rpcmonitor.EventInfo -> State E (result policy.PURuntime);
}.

Class EventCollector (E : Type) := {
  CollectContainerEvent : collector.ContainerRecord -> State E unit;
}.

(* ------------------------------------------------------------------ *)
(** ** The processor *)

Module uidmonitor.

Import policy rpcmonitor monitor.

Definition triremeBaseCgroup : string := "/trireme".

(** An entry of [putoPidMap]. [pidlist] is a [map[string]bool] whose
    values are all [true]: a set. *)
Record puToPidEntry := {
  pidlist : gset string;
  Info : PURuntime;
  publishedContextID : string;
}.

(** [EventInfo] is a pointer in Go; every record that [Start] writes
    holds an event, and so does every record here. *)
Record StoredContext := {
  MarkVal : string;
  EventInfo : rpcmonitor.EventInfo;
}.

(** The observable steps of the processor: the calls to the
    collaborators, the changes to the two caches and the calls to the
    context store. The processor keeps them, each with the error it
    returned, in the order they were made; [Start] also records that it
    was entered. *)
Module call.
Inductive t :=
| Start (eventInfo : rpcmonitor.EventInfo)
| MetadataExtractor (eventInfo : rpcmonitor.EventInfo)
| SetPURuntime (id : string) (runtimeInfo : PURuntime)
| HandlePUEvent (id : string) (e : Event)
| Creategroup (pid : string)
| AssignMark (pid : string) (mark : Z)
| AddProcess (pid : string) (n : Z)
| DeleteCgroup (id : string)
| Deletebasepath (id : string)
| CollectContainerEvent (r : collector.ContainerRecord)
| PutoPidMapAdd (contextID : string) (entry : puToPidEntry)
| PutoPidMapRemove (contextID : string)
| PidlistInsert (contextID pid : string)
| PidlistDelete (contextID pid : string)
| PidToPUAdd (pid contextID : string)
| PidToPURemove (pid : string)
| StoreContext (contextID : string) (c : StoredContext)
| GetContextInfo (contextID : string)
| RemoveContext (contextID : string).
End call.

Section Processor.
Context {E : Type}.
Context `{!cgnetcls.Cgroupnetcls E, !ProcessingUnitsHandler E,
          !RPCMetadataExtractor E, !EventCollector E}.
(** The field [storePath], and the behaviour of [cache.Add] on a key
    that is present. *)
Variable storePath : string.
Variable add_replaces : bool.

(** What the receiver [s *UIDProcessor] reaches and may change: the two
    caches, the files of the context store, the state behind the
    collaborators; and the steps taken so far. [Start] and [Stop] hold the
    mutex of the processor from their first step to their last, so the
    events are run one at a time. *)
Record UIDProcessor := {
  putoPidMap : gmap string puToPidEntry;
  pidToPU : gmap string string;
  fs : os.FS (contextstore.Data StoredContext);
  env : E;
  trace : list (call.t * option error);
}.

Definition set_trace (t : list (call.t * option error)) (s : UIDProcessor)
  : UIDProcessor :=
  {| putoPidMap := putoPidMap s; pidToPU := pidToPU s; fs := fs s;
     env := env s; trace := t |}.
Definition set_env (e : E) (s : UIDProcessor) : UIDProcessor :=
  {| putoPidMap := putoPidMap s; pidToPU := pidToPU s; fs := fs s;
     env := e; trace := trace s |}.
Definition set_fs (f : os.FS (contextstore.Data StoredContext))
    (s : UIDProcessor) : UIDProcessor :=
  {| putoPidMap := putoPidMap s; pidToPU := pidToPU s; fs := f;
     env := env s; trace := trace s |}.
Definition set_putoPidMap (c : gmap string puToPidEntry)
    (s : UIDProcessor) : UIDProcessor :=
  {| putoPidMap := c; pidToPU := pidToPU s; fs := fs s;
     env := env s; trace := trace s |}.
Definition set_pidToPU (c : gmap string string)
    (s : UIDProcessor) : UIDProcessor :=
  {| putoPidMap := putoPidMap s; pidToPU := c; fs := fs s;
     env := env s; trace := trace s |}.

Definition log (c : call.t * option error) : State UIDProcessor unit :=
  modify (fun s => set_trace (trace s ++ [c]) s).

(** Running a step on one component of the state. *)
Definition on_env {A} (m : State E A) : State UIDProcessor A :=
  fun s => let '(a, e) := m (env s) in (a, set_env e s).

Definition on_fs {A} (m : State (os.FS (contextstore.Data StoredContext)) A)
  : State UIDProcessor A :=
  fun s => let '(a, f) := m (fs s) in (a, set_fs f s).

Definition on_putoPidMap {A} (m : State (gmap string puToPidEntry) A)
  : State UIDProcessor A :=
  fun s => let '(a, c) := m (putoPidMap s) in (a, set_putoPidMap c s).

Definition on_pidToPU {A} (m : State (gmap string string) A)
  : State UIDProcessor A :=
  fun s => let '(a, c) := m (pidToPU s) in (a, set_pidToPU c s).

(** A call to a collaborator, to a cache or to the store, recorded
    with the error it returned. *)
Definition logged (c : call.t) (m : State UIDProcessor (option error))
  : State UIDProcessor (option error) :=
  err ← m; _ ← log (c, err); mret err.

Definition error_of {A} (r : result A) : option error :=
  match r with
  | Ok _ => None
  | Err err => Some err
  end.

Definition netcls_Creategroup (pid : string) :=
  logged (call.Creategroup pid) (on_env (cgnetcls.Creategroup pid)).
Definition netcls_AssignMark (pid : string) (mark : Z) :=
  logged (call.AssignMark pid mark) (on_env (cgnetcls.AssignMark pid mark)).
Definition netcls_AddProcess (pid : string) (n : Z) :=
  logged (call.AddProcess pid n) (on_env (cgnetcls.AddProcess pid n)).
Definition netcls_DeleteCgroup (id : string) :=
  logged (call.DeleteCgroup id) (on_env (cgnetcls.DeleteCgroup id)).
Definition netcls_Deletebasepath (id : string) : State UIDProcessor bool :=
  b ← on_env (cgnetcls.Deletebasepath id);
  _ ← log (call.Deletebasepath id, None);
  mret b.
Definition puHandler_SetPURuntime (id : string) (r : PURuntime) :=
  logged (call.SetPURuntime id r) (on_env (SetPURuntime id r)).
Definition puHandler_HandlePUEvent (id : string) (e : Event) :=
  logged (call.HandlePUEvent id e) (on_env (HandlePUEvent id e)).
Definition s_metadataExtractor (eventInfo : rpcmonitor.EventInfo)
  : State UIDProcessor (result PURuntime) :=
  r ← on_env (metadataExtractor eventInfo);
  _ ← log (call.MetadataExtractor eventInfo, error_of r);
  mret r.
Definition collector_CollectContainerEvent (r : collector.ContainerRecord)
  : State UIDProcessor unit :=
  _ ← on_env (CollectContainerEvent r);
  log (call.CollectContainerEvent r, None).

Definition putoPidMap_Add (contextID : string) (entry : puToPidEntry) :=
  logged (call.PutoPidMapAdd contextID entry)
    (on_putoPidMap (cache.Add add_replaces contextID entry)).
Definition putoPidMap_Remove (contextID : string) :=
  logged (call.PutoPidMapRemove contextID)
    (on_putoPidMap (cache.Remove contextID)).
Definition pidToPU_Add (pid contextID : string) :=
  logged (call.PidToPUAdd pid contextID)
    (on_pidToPU (cache.Add add_replaces pid contextID)).
Definition pidToPU_Remove (pid : string) :=
  logged (call.PidToPURemove pid) (on_pidToPU (cache.Remove pid)).

(** [entry.pidlist[pid] = true] and [delete(entry.pidlist, pid)] on the
    entry that the cache holds under [contextID]: the entry is reached
    through a pointer, so the cache sees the change. *)
Definition entry_insert (pid : string) (entry : puToPidEntry) : puToPidEntry :=
  {| pidlist := {[pid]} ∪ pidlist entry; Info := Info entry;
     publishedContextID := publishedContextID entry |}.
Definition entry_delete (pid : string) (entry : puToPidEntry) : puToPidEntry :=
  {| pidlist := pidlist entry ∖ {[pid]}; Info := Info entry;
     publishedContextID := publishedContextID entry |}.
Definition pidlist_insert (contextID pid : string) : State UIDProcessor unit :=
  _ ← on_putoPidMap (modify (alter (entry_insert pid) contextID));
  log (call.PidlistInsert contextID pid, None).
Definition pidlist_delete (contextID pid : string) : State UIDProcessor unit :=
  _ ← on_putoPidMap (modify (alter (entry_delete pid) contextID));
  log (call.PidlistDelete contextID pid, None).

Definition contextStore_StoreContext (contextID : string) (c : StoredContext) :=
  logged (call.StoreContext contextID c)
    (on_fs (contextstore.StoreContext storePath contextID c)).
Definition contextStore_GetContextInfo (contextID : string)
  : State UIDProcessor (result StoredContext) :=
  r ← on_fs (contextstore.GetContextInfo storePath contextID);
  _ ← log (call.GetContextInfo contextID, error_of r);
  mret r.
Definition contextStore_RemoveContext (contextID : string) :=
  logged (call.RemoveContext contextID)
    (on_fs (contextstore.RemoveContext storePath contextID)).

(** [if err != nil { return err }]. *)
Definition or_return {S} (m : State S (option error))
    (k : State S (option error)) : State S (option error) :=
  err ← m;
  match err with
  | Some err => mret (Some err)
  | None => k
  end.

(** A call whose error is only logged. *)
Definition warn {S} (m : State S (option error)) : State S unit :=
  _ ← m; mret tt.


Definition Create (eventInfo : rpcmonitor.EventInfo)
  : State UIDProcessor (option error) :=
  puHandler_HandlePUEvent (PUID eventInfo) EventCreate.

Definition processLinuxServiceStart (event : rpcmonitor.EventInfo)
    (runtimeInfo : PURuntime) : State UIDProcessor (option error) :=
  or_return (netcls_Creategroup (PID event)) (
  let markval := CgroupMark (Options runtimeInfo) in
  if decide (markval = "") then
    _ ← warn (netcls_DeleteCgroup (PID event));
    mret (Some (New "Mark value not found"))
  else
    match strconv.ParseUint32 markval with
    | Err err => mret (Some err)
    | Ok mark =>
        err ← netcls_AssignMark (PID event) mark;
        match err with
        | Some err =>
            _ ← warn (netcls_DeleteCgroup (PID event));
            mret (Some err)
        | None =>
            match strconv.Atoi (PID event) with
            | Err err => mret (Some err)
            | Ok pid =>
                err ← netcls_AddProcess (PID event) pid;
                match err with
                | Some err =>
                    _ ← warn (netcls_DeleteCgroup (PID event));
                    mret (Some err)
                | None => mret None
                end
            end
        end
    end).

Definition Start (eventInfo : rpcmonitor.EventInfo)
  : State UIDProcessor (option error) :=
  _ ← log (call.Start eventInfo, None);
  let contextID := PUID eventInfo in
  s ← get;
  match cache.Get contextID (putoPidMap s) with
  | Err _ =>
      r ← s_metadataExtractor eventInfo;
      match r with
      | Err err => mret (Some err)
      | Ok runtimeInfo =>
          let publishedContextID :=
            contextID +:+ CgroupMark (Options runtimeInfo) in
          or_return (puHandler_SetPURuntime publishedContextID runtimeInfo) (
          let defaultIP := fst (DefaultIPAddress runtimeInfo) in
          or_return (puHandler_HandlePUEvent publishedContextID EventStart) (
          or_return (processLinuxServiceStart eventInfo runtimeInfo) (
          _ ← collector_CollectContainerEvent
                {| collector.ContextID := contextID;
                   collector.IPAddress := defaultIP;
                   collector.Tags := policy.Tags runtimeInfo;
                   collector.Event := collector.ContainerStart |};
          let entry :=
            {| Info := runtimeInfo;
               publishedContextID := publishedContextID;
               pidlist := {[ PID eventInfo ]} |} in
          _ ← warn (putoPidMap_Add contextID entry);
          _ ← warn (pidToPU_Add (PID eventInfo) contextID);
          contextStore_StoreContext contextID
            {| EventInfo := eventInfo;
               MarkVal := CgroupMark (Options runtimeInfo) |})))
      end
  | Ok pids =>
      _ ← pidlist_insert contextID (PID eventInfo);
      _ ← warn (pidToPU_Add (PID eventInfo) (PUID eventInfo));
      processLinuxServiceStart eventInfo (Info pids)
  end.

Definition generateContextID (eventInfo : rpcmonitor.EventInfo)
  : result string :=
  let contextID := PUID eventInfo in
  let finish (contextID : string) :=
    Ok ("/" +:+ strings.slice_from contextID
                  (strings.LastIndex contextID "/" + 1)) in
  if decide (Cgroup eventInfo ≠ "") then
    if negb (regexp.regStop_Match (Cgroup eventInfo)) then
      Err (New ("Invalid PUID " +:+ Cgroup eventInfo))
    else
      finish (strings.slice_from (Cgroup eventInfo)
                (strings.LastIndex (Cgroup eventInfo) "/" + 1))
  else finish contextID.

Definition Stop (eventInfo : rpcmonitor.EventInfo)
  : State UIDProcessor (option error) :=
  match generateContextID eventInfo with
  | Err err => mret (Some err)
  | Ok contextID =>
      if decide (contextID = triremeBaseCgroup) then
        _ ← netcls_Deletebasepath contextID;
        mret None
      else
        let stoppedpid := strings.TrimLeft contextID "/" in
        s ← get;
        let contextID :=
          match cache.Get stoppedpid (pidToPU s) with
          | Ok puid => puid
          | Err _ => contextID
          end in
        match cache.Get contextID (putoPidMap s) with
        | Ok ctx =>
            let publishedContextID := publishedContextID ctx in
            _ ← pidlist_delete contextID stoppedpid;
            _ ← warn (pidToPU_Remove stoppedpid);
            if decide (size (pidlist (entry_delete stoppedpid ctx)) ≠ 0%nat)
            then netcls_DeleteCgroup stoppedpid
            else
              _ ← warn (puHandler_HandlePUEvent publishedContextID EventStop);
              _ ← warn (putoPidMap_Remove contextID);
              _ ← warn (contextStore_RemoveContext contextID);
              _ ← warn (puHandler_HandlePUEvent publishedContextID EventDestroy);
              netcls_DeleteCgroup stoppedpid
        | Err _ => mret None
        end
  end.

Definition Destroy (eventInfo : rpcmonitor.EventInfo)
  : State UIDProcessor (option error) :=
  mret None.

Definition Pause (eventInfo : rpcmonitor.EventInfo)
  : State UIDProcessor (option error) :=
  match generateContextID eventInfo with
  | Err (New msg) =>
      mret (Some (New ("Couldn't generate a contextID: " +:+ msg)))
  | Ok contextID => puHandler_HandlePUEvent contextID EventPause
  end.

(** The first loop of [ReSync]: empty cgroups are deleted, the pids of
    the others are collected under the mark of their cgroup. *)
Fixpoint collect_marks (cgroups : list string)
    (marktoPID : gmap string (list string))
  : State UIDProcessor (gmap string (list string)) :=
  match cgroups with
  | [] => mret marktoPID
  | cgroup :: cgroups' =>
      s ← get;
      let pidlist := fst (cgnetcls.ListCgroupProcesses cgroup (env s)) in
      if decide (length pidlist = 0%nat) then
        _ ← warn (netcls_DeleteCgroup cgroup);
        collect_marks cgroups' marktoPID
      else
        let markval := cgnetcls.GetAssignedMarkVal cgroup (env s) in
        collect_marks cgroups'
          match marktoPID !! markval with
          | None => <[markval := pidlist]> marktoPID
          | Some list => <[markval := list ++ pidlist]> marktoPID
          end
  end.

(** The loop [for _, pid := range pids] of [ReSync]: the one event
    object has its [PID] overwritten before each [Start]. *)
Fixpoint replay (pids : list string) (eventInfo : rpcmonitor.EventInfo)
  : State UIDProcessor unit :=
  match pids with
  | [] => mret tt
  | pid :: pids' =>
      let eventInfo := set_PID pid eventInfo in
      _ ← warn (Start eventInfo);
      replay pids' eventInfo
  end.

(** One turn of the second loop of [ReSync], for a [contextID] other
    than the empty string. *)
Definition resync_one (marktoPID : gmap string (list string))
    (contextID : string) : State UIDProcessor unit :=
  r ← contextStore_GetContextInfo ("/" +:+ contextID);
  match r with
  | Err _ => mret tt
  | Ok storedPU =>
      let eventInfo := EventInfo storedPU in
      let mark := MarkVal storedPU in
      match marktoPID !! mark with
      | None => warn (contextStore_RemoveContext ("/" +:+ contextID))
      | Some pids => replay pids eventInfo
      end
  end.

(** The second loop: [walker] is what the channel still has to
    deliver; a closed channel delivers the empty string. *)
Fixpoint drain (marktoPID : gmap string (list string))
    (walker : list string) : State UIDProcessor unit :=
  match walker with
  | [] => mret tt
  | contextID :: walker' =>
      if decide (contextID = "") then mret tt
      else
        _ ← resync_one marktoPID contextID;
        drain marktoPID walker'
  end.

Definition ReSync (e : rpcmonitor.EventInfo)
  : State UIDProcessor (option error) :=
  s ← get;
  match contextstore.WalkStore storePath (fs s) with
  | Err _ => mret (Some (New "error in accessing context store"))
  | Ok walker =>
      let cgroups := cgnetcls.GetCgroupList (env s) in
      marktoPID ← collect_marks cgroups ∅;
      _ ← drain marktoPID walker;
      mret None
  end.

End Processor.

End uidmonitor.

(* ------------------------------------------------------------------ *)
(** ** The CNI processor *)

(** [cnimonitor.CniProcessor] keeps no cache: it registers a unit with the
    policy handler and writes the event itself to a context store of its
    own. What it prints on the standard output is left out. *)
Module cnimonitor.

Import policy rpcmonitor monitor.

Definition contextStorePath : string := "/var/run/trireme/cni".

Module call.
Inductive t :=
| Start (eventInfo : rpcmonitor.EventInfo)
| MetadataExtractor (eventInfo : rpcmonitor.EventInfo)
| SetPURuntime (id : string) (runtimeInfo : PURuntime)
| HandlePUEvent (id : string) (e : Event)
| CollectContainerEvent (r : collector.ContainerRecord)
| StoreContext (contextID : string) (eventInfo : rpcmonitor.EventInfo)
| GetContextInfo (contextID : string).
End call.

(** [generateContextID]: the first twelve bytes of the [PUID]. *)
Definition generateContextID (eventInfo : rpcmonitor.EventInfo) : result string :=
  if decide (PUID eventInfo = "") then Err (New "PUID is empty from eventInfo")
  else if Nat.ltb (String.length (PUID eventInfo)) 12
       then Err (New "PUID smaller than 12 characters")
       else Ok (String.substring 0 12 (PUID eventInfo)).

Section Processor.
Context {E : Type}.
Context `{!ProcessingUnitsHandler E, !RPCMetadataExtractor E,
          !EventCollector E}.

Record CniProcessor := {
  fs : os.FS (contextstore.Data rpcmonitor.EventInfo);
  env : E;
  trace : list (call.t * option error);
}.

Definition log (c : call.t * option error) : State CniProcessor unit :=
  modify (fun p => {| fs := fs p; env := env p; trace := trace p ++ [c] |}).

Definition on_env {A} (m : State E A) : State CniProcessor A :=
  fun p => let '(a, e) := m (env p) in
           (a, {| fs := fs p; env := e; trace := trace p |}).

Definition on_fs {A}
    (m : State (os.FS (contextstore.Data rpcmonitor.EventInfo)) A)
  : State CniProcessor A :=
  fun p => let '(a, f) := m (fs p) in
           (a, {| fs := f; env := env p; trace := trace p |}).

Definition logged (c : call.t) (m : State CniProcessor (option error))
  : State CniProcessor (option error) :=
  err ← m; _ ← log (c, err); mret err.

Definition or_return (m k : State CniProcessor (option error))
  : State CniProcessor (option error) :=
  err ← m;
  match err with
  | Some err => mret (Some err)
  | None => k
  end.

Definition Create (eventInfo : rpcmonitor.EventInfo)
  : State CniProcessor (option error) :=
  mret None.

Definition Start (eventInfo : rpcmonitor.EventInfo)
  : State CniProcessor (option error) :=
  _ ← log (call.Start eventInfo, None);
  match generateContextID eventInfo with
  | Err err => mret (Some err)
  | Ok contextID =>
      r ← on_env (metadataExtractor eventInfo);
      _ ← log (call.MetadataExtractor eventInfo, uidmonitor.error_of r);
      match r with
      | Err err => mret (Some err)
      | Ok runtimeInfo =>
          or_return
            (logged (call.SetPURuntime contextID runtimeInfo)
               (on_env (SetPURuntime contextID runtimeInfo))) (
          let defaultIP := fst (DefaultIPAddress runtimeInfo) in
          or_return
            (logged (call.HandlePUEvent contextID EventStart)
               (on_env (HandlePUEvent contextID EventStart))) (
          let record :=
            {| collector.ContextID := contextID;
               collector.IPAddress := defaultIP;
               collector.Tags := policy.Tags runtimeInfo;
               collector.Event := collector.ContainerStart |} in
          _ ← on_env (CollectContainerEvent record);
          _ ← log (call.CollectContainerEvent record, None);
          logged (call.StoreContext contextID eventInfo)
            (on_fs (contextstore.StoreContext contextStorePath contextID
                      eventInfo))))
      end
  end.

Definition Stop (eventInfo : rpcmonitor.EventInfo)
  : State CniProcessor (option error) :=
  match generateContextID eventInfo with
  | Err (New msg) =>
      mret (Some (New ("Couldn't generate a contextID: " +:+ msg)))
  | Ok contextID =>
      logged (call.HandlePUEvent contextID EventStop)
        (on_env (HandlePUEvent contextID EventStop))
  end.

Definition Destroy (eventInfo : rpcmonitor.EventInfo)
  : State CniProcessor (option error) :=
  mret None.

Definition Pause (eventInfo : rpcmonitor.EventInfo)
  : State CniProcessor (option error) :=
  mret None.

(** The loop of [ReSync]: [walker] is what the channel still has to
    deliver. A record that cannot be read is passed over; a start that
    fails ends the loop and the resynchronisation. *)
Fixpoint drain (walker : list string) : State CniProcessor (option error) :=
  match walker with
  | [] => mret None
  | contextID :: walker' =>
      if decide (contextID = "") then mret None
      else
        r ← on_fs (contextstore.GetContextInfo contextStorePath
                     ("/" +:+ contextID));
        _ ← log (call.GetContextInfo ("/" +:+ contextID),
                 uidmonitor.error_of r);
        match r with
        | Err _ => drain walker'
        | Ok eventInfo =>
            err ← Start eventInfo;
            match err with
            | Some (New msg) =>
                mret (Some (New ("error in processing existing data: "
                                 +:+ msg)))
            | None => drain walker'
            end
        end
  end.

Definition ReSync (e : rpcmonitor.EventInfo)
  : State CniProcessor (option error) :=
  p ← get;
  match contextstore.WalkStore contextStorePath (fs p) with
  | Err _ => mret (Some (New "error in accessing context store"))
  | Ok walker => drain walker
  end.

End Processor.

End cnimonitor.

(* ------------------------------------------------------------------ *)
(** ** The command line client *)

Module systemdutil.

(** The loop of [ParseServices]. *)
Fixpoint parse_ports (ports : list string) (services : list policy.Service)
  : result (list policy.Service) :=
  match ports with
  | [] => Ok services
  | p :: ports' =>
      match strconv.Atoi p with
      | Err _ => Err (New "Invalid services")
      | Ok intPort =>
          if (intPort >? 65535) || (intPort <? 0)
          then Err (New "Invalid services")
          else
            parse_ports ports'
              (services ++ [ {| policy.Protocol := 6;
                                policy.Port := intPort mod 2 ^ 16 |} ])
      end
  end.

(** [ParseServices]: no port at all stands for the port [0]. *)
Definition ParseServices (ports : list string) : result (list policy.Service) :=
  let ports := if decide (length ports = 0%nat) then ports ++ ["0"] else ports in
  parse_ports ports [].

End systemdutil.

(* ------------------------------------------------------------------ *)
(** ** Collaborators for the examples *)

(** A test double for the four collaborators, as a Go test would write
    one: a table says which calls fail, the extractor always proposes the
    same runtime, and the classifier keeps its cgroups in a map from the
    cgroup's name to its mark and its processes. *)
Module mock.

Import uidmonitor.

Record Env := {
  fails : call.t -> bool;
  runtime : policy.PURuntime;
  cgroups : gmap string (string * list string);
}.

Definition set_cgroups (g : gmap string (string * list string)) (e : Env) : Env :=
  {| fails := fails e; runtime := runtime e; cgroups := g |}.

Definition failing (c : call.t) (e : Env) (ok : Env) : option error * Env :=
  if fails e c then (Some (New "refused"), e) else (None, ok).

#[global] Instance netcls : cgnetcls.Cgroupnetcls Env := {|
  cgnetcls.Creategroup pid e :=
    failing (call.Creategroup pid) e
      (set_cgroups (<[pid := default ("", []) (cgroups e !! pid)]> (cgroups e)) e);
  cgnetcls.AssignMark pid mark e :=
    failing (call.AssignMark pid mark) e
      (set_cgroups (alter (fun g => (pretty mark, g.2)) pid (cgroups e)) e);
  cgnetcls.AddProcess pid n e :=
    failing (call.AddProcess pid n) e
      (set_cgroups (alter (fun g => (g.1, g.2 ++ [pretty n])) pid (cgroups e)) e);
  cgnetcls.DeleteCgroup id e :=
    failing (call.DeleteCgroup id) e (set_cgroups (delete id (cgroups e)) e);
  cgnetcls.Deletebasepath id e := (true, e);
  cgnetcls.GetCgroupList e :=
    merge_sort os.name_le (elements (dom (cgroups e)));
  cgnetcls.ListCgroupProcesses cgroup e :=
    match cgroups e !! cgroup with
    | Some g => (g.2, None)
    | None => ([], Some (New "no such cgroup"))
    end;
  cgnetcls.GetAssignedMarkVal cgroup e :=
    match cgroups e !! cgroup with
    | Some g => g.1
    | None => ""
    end;
|}.

#[global] Instance puHandler : ProcessingUnitsHandler Env := {|
  SetPURuntime id r e := failing (call.SetPURuntime id r) e e;
  HandlePUEvent id k e := failing (call.HandlePUEvent id k) e e;
|}.

#[global] Instance extractor : RPCMetadataExtractor Env := {|
  metadataExtractor eventInfo e :=
    if fails e (call.MetadataExtractor eventInfo)
    then (Err (New "refused"), e) else (Ok (runtime e), e);
|}.

#[global] Instance collect : EventCollector Env := {|
  CollectContainerEvent r e := (tt, e);
|}.

Definition with_mark (mark : string) : policy.PURuntime :=
  {| policy.Options := {| policy.CgroupName := "uid"; policy.CgroupMark := mark |};
     policy.DefaultIPAddress := ("127.0.0.1", true);
     policy.Tags := ["@usr:uid=1001"] |}.

Definition event (puid pid : string) : rpcmonitor.EventInfo :=
  {| rpcmonitor.EventType := monitor.EventStart; rpcmonitor.PUID := puid;
     rpcmonitor.Name := "login"; rpcmonitor.Tags := [];
     rpcmonitor.PID := pid; rpcmonitor.Cgroup := "" |}.

(** The stop notice of the kernel for the cgroup of [pid]. *)
Definition release (pid : string) : rpcmonitor.EventInfo :=
  {| rpcmonitor.EventType := monitor.EventStop; rpcmonitor.PUID := "";
     rpcmonitor.Name := ""; rpcmonitor.Tags := [];
     rpcmonitor.PID := ""; rpcmonitor.Cgroup := "/trireme/" +:+ pid |}.

Definition never : call.t -> bool := fun _ => false.

Definition empty_fs : os.FS (contextstore.Data StoredContext) :=
  {| os.dirs := ∅; os.files := ∅ |}.

(** A processor that has just been created: empty caches, an empty
    store. *)
Definition fresh (f : call.t -> bool) (mark : string) : UIDProcessor :=
  {| putoPidMap := ∅; pidToPU := ∅; fs := empty_fs;
     env := {| fails := f; runtime := with_mark mark; cgroups := ∅ |};
     trace := [] |}.

Definition storePath : string := "/var/run/trireme/linux".

(** The processor after the controller was started again: the caches
    are empty, the store and the cgroups are what they were; [f] says
    which calls fail from now on. *)
Definition restarted (f : call.t -> bool) (s : UIDProcessor) : UIDProcessor :=
  {| putoPidMap := ∅; pidToPU := ∅; fs := fs s;
     env := {| fails := f; runtime := runtime (env s);
               cgroups := cgroups (env s) |};
     trace := [] |}.

(** The same processor, with another table of failing calls. *)
Definition from_now_on (f : call.t -> bool) (s : UIDProcessor) : UIDProcessor :=
  {| putoPidMap := putoPidMap s; pidToPU := pidToPU s; fs := fs s;
     env := {| fails := f; runtime := runtime (env s);
               cgroups := cgroups (env s) |};
     trace := trace s |}.

Definition extraction_fails (c : call.t) : bool :=
  match c with call.MetadataExtractor _ => true | _ => false end.


Definition policy_fails (c : call.t) : bool :=
  match c with call.HandlePUEvent _ _ => true | _ => false end.

(** The record of [contextID] overwritten with bytes that do not
    decode. *)
Definition corrupted (contextID : string)
    (f : os.FS (contextstore.Data StoredContext))
  : os.FS (contextstore.Data StoredContext) :=
  (os.WriteFile
     (os.Join (contextstore.folder_of storePath contextID)
        contextstore.eventInfoFile)
     (contextstore.Invalid "{") f).2.

(** A CNI processor that has just been created, over an empty store. *)
Definition fresh_cni (f : call.t -> bool) : @cnimonitor.CniProcessor Env :=
  {| cnimonitor.fs := {| os.dirs := ∅; os.files := ∅ |};
     cnimonitor.env :=
       {| fails := f; runtime := with_mark "100"; cgroups := ∅ |};
     cnimonitor.trace := [] |}.

End mock.

(* ------------------------------------------------------------------ *)
(** ** Vocabulary of the properties *)

Module lifecycle.

Import policy rpcmonitor monitor uidmonitor.

(** What the classifier binding of process [pid] under the mark [mark]
    can return, with the calls it made to get there. *)
Inductive binding (pid mark : string)
  : option error -> list (call.t * option error) -> Prop :=
| create_fails err :
    binding pid mark (Some err) [(call.Creategroup pid, Some err)]
| no_mark derr :
    mark = "" ->
    binding pid mark (Some (New "Mark value not found"))
      [(call.Creategroup pid, None); (call.DeleteCgroup pid, derr)]
| bad_mark err :
    mark <> "" -> strconv.ParseUint32 mark = Err err ->
    binding pid mark (Some err) [(call.Creategroup pid, None)]
| assign_fails m err derr :
    mark <> "" -> strconv.ParseUint32 mark = Ok m ->
    binding pid mark (Some err)
      [(call.Creategroup pid, None); (call.AssignMark pid m, Some err);
       (call.DeleteCgroup pid, derr)]
| bad_pid m err :
    mark <> "" -> strconv.ParseUint32 mark = Ok m ->
    strconv.Atoi pid = Err err ->
    binding pid mark (Some err)
      [(call.Creategroup pid, None); (call.AssignMark pid m, None)]
| add_fails m n err derr :
    mark <> "" -> strconv.ParseUint32 mark = Ok m ->
    strconv.Atoi pid = Ok n ->
    binding pid mark (Some err)
      [(call.Creategroup pid, None); (call.AssignMark pid m, None);
       (call.AddProcess pid n, Some err); (call.DeleteCgroup pid, derr)]
| bound m n :
    mark <> "" -> strconv.ParseUint32 mark = Ok m ->
    strconv.Atoi pid = Ok n ->
    binding pid mark None
      [(call.Creategroup pid, None); (call.AssignMark pid m, None);
       (call.AddProcess pid n, None)].

(** The events that [Start] was entered with, in order. *)
Definition starts (tr : list (call.t * option error))
  : list rpcmonitor.EventInfo :=
  omap (fun c => match c.1 with call.Start e => Some e | _ => None end) tr.

Definition is_HandlePUEvent (c : call.t * option error) : bool :=
  match c.1 with call.HandlePUEvent _ _ => true | _ => false end.

(** The published identifier, the entry and the record of a unit that
    [eventInfo] starts with the runtime [runtimeInfo]. *)
Definition published (eventInfo : rpcmonitor.EventInfo) (runtimeInfo : PURuntime) : string :=
  PUID eventInfo +:+ CgroupMark (Options runtimeInfo).

Definition first_entry (eventInfo : rpcmonitor.EventInfo) (runtimeInfo : PURuntime)
  : puToPidEntry :=
  {| pidlist := {[ PID eventInfo ]}; Info := runtimeInfo;
     publishedContextID := published eventInfo runtimeInfo |}.

Definition record_of (eventInfo : rpcmonitor.EventInfo) (runtimeInfo : PURuntime)
  : StoredContext :=
  {| MarkVal := CgroupMark (Options runtimeInfo); EventInfo := eventInfo |}.

Definition telemetry (eventInfo : rpcmonitor.EventInfo) (runtimeInfo : PURuntime)
  : collector.ContainerRecord :=
  {| collector.ContextID := PUID eventInfo;
     collector.IPAddress := fst (DefaultIPAddress runtimeInfo);
     collector.Tags := policy.Tags runtimeInfo;
     collector.Event := collector.ContainerStart |}.

(** The calls of a first start up to and including the classifier
    binding. *)
Definition until_bound (eventInfo : rpcmonitor.EventInfo) (runtimeInfo : PURuntime)
    (mark n : Z) : list call.t :=
  [ call.MetadataExtractor eventInfo;
    call.SetPURuntime (published eventInfo runtimeInfo) runtimeInfo;
    call.HandlePUEvent (published eventInfo runtimeInfo) EventStart;
    call.Creategroup (PID eventInfo);
    call.AssignMark (PID eventInfo) mark;
    call.AddProcess (PID eventInfo) n ].

(** A call to the classifier about the cgroup of [pid]. *)
Definition classifier_call (pid : string) (c : call.t) : Prop :=
  match c with
  | call.Creategroup p | call.AssignMark p _ | call.AddProcess p _
  | call.DeleteCgroup p => p = pid
  | _ => False
  end.

Definition succeeded (cs : list call.t) : list (call.t * option error) :=
  map (fun c => (c, None)) cs.

(** A first start that stops before the telemetry record: what it
    returns and the calls it made. *)
Inductive aborted (eventInfo : rpcmonitor.EventInfo)
  : option error -> list (call.t * option error) -> Prop :=
| extraction_fails err :
    aborted eventInfo (Some err)
      [(call.MetadataExtractor eventInfo, Some err)]
| registration_fails runtimeInfo err :
    aborted eventInfo (Some err)
      [(call.MetadataExtractor eventInfo, None);
       (call.SetPURuntime (published eventInfo runtimeInfo) runtimeInfo,
        Some err)]
| activation_fails runtimeInfo err :
    aborted eventInfo (Some err)
      [(call.MetadataExtractor eventInfo, None);
       (call.SetPURuntime (published eventInfo runtimeInfo) runtimeInfo, None);
       (call.HandlePUEvent (published eventInfo runtimeInfo) EventStart,
        Some err)]
| classification_fails runtimeInfo err d :
    binding (PID eventInfo) (CgroupMark (Options runtimeInfo)) (Some err) d ->
    aborted eventInfo (Some err)
      ([(call.MetadataExtractor eventInfo, None);
        (call.SetPURuntime (published eventInfo runtimeInfo) runtimeInfo, None);
        (call.HandlePUEvent (published eventInfo runtimeInfo) EventStart, None)]
       ++ d).

Section State.
Context {E : Type}.
Context `{!cgnetcls.Cgroupnetcls E, !ProcessingUnitsHandler E,
          !RPCMetadataExtractor E, !EventCollector E}.
Variable storePath : string.
Variable add_replaces : bool.

(** The caches and the store of two states agree: only the state
    behind the collaborators and the recorded calls may differ. *)
Definition same_tables (s s' : @UIDProcessor E) : Prop :=
  putoPidMap s' = putoPidMap s /\ pidToPU s' = pidToPU s /\ fs s' = fs s.

(** Every process of the index is a member of the unit it maps to. *)
Definition index_sound (s : @UIDProcessor E) : Prop :=
  forall pid contextID,
    pidToPU s !! pid = Some contextID ->
    exists entry,
      putoPidMap s !! contextID = Some entry /\ pid ∈ pidlist entry.

(** No process of the index is a member of a second unit. *)
Definition index_exclusive (s : @UIDProcessor E) : Prop :=
  forall pid contextID other entry,
    pidToPU s !! pid = Some contextID ->
    putoPidMap s !! other = Some entry -> pid ∈ pidlist entry ->
    other = contextID.

Inductive op :=
| OpCreate (e : rpcmonitor.EventInfo) | OpStart (e : rpcmonitor.EventInfo) | OpStop (e : rpcmonitor.EventInfo)
| OpPause (e : rpcmonitor.EventInfo) | OpDestroy (e : rpcmonitor.EventInfo) | OpReSync (e : rpcmonitor.EventInfo).

Definition run (o : op) : State (@UIDProcessor E) (option error) :=
  match o with
  | OpCreate e => Create e
  | OpStart e => Start storePath add_replaces e
  | OpStop e => Stop storePath e
  | OpPause e => Pause e
  | OpDestroy e => Destroy e
  | OpReSync e => ReSync storePath add_replaces e
  end.

(** The states the processor reaches from empty caches, whatever the
    store holds and whatever the collaborators answer. *)
Inductive reachable : @UIDProcessor E -> Prop :=
| reach_new s : putoPidMap s = ∅ -> pidToPU s = ∅ -> reachable s
| reach_run o s : reachable s -> reachable (run o s).2.

(** The process that a stop for the generated [contextID] tears down,
    and the unit the stop is applied to: the one the index gives for
    that process, else [contextID] itself. *)
Definition stopped_process (contextID : string) : string :=
  strings.TrimLeft contextID "/".

Definition resolved_unit (contextID : string) (s : @UIDProcessor E) : string :=
  default contextID (pidToPU s !! stopped_process contextID).

(** A first start that ran to its end: the calls it made, all but
    the last two without error, and what it left. It returns what the
    write of the Context Record returns. *)
Definition first_start_completed (eventInfo : rpcmonitor.EventInfo)
    (s : @UIDProcessor E) (r : option error) (s' : @UIDProcessor E) : Prop :=
  exists runtimeInfo m n aerr,
    trace s' = trace s ++ (call.Start eventInfo, None)
         :: succeeded (until_bound eventInfo runtimeInfo m n)
         ++ [(call.CollectContainerEvent (telemetry eventInfo runtimeInfo), None);
             (call.PutoPidMapAdd (PUID eventInfo)
                (first_entry eventInfo runtimeInfo), None);
             (call.PidToPUAdd (PID eventInfo) (PUID eventInfo), aerr);
             (call.StoreContext (PUID eventInfo)
                (record_of eventInfo runtimeInfo), r)]
    /\ putoPidMap s' !! PUID eventInfo
       = Some (first_entry eventInfo runtimeInfo)
    /\ is_Some (pidToPU s' !! PID eventInfo)
    /\ (r, fs s') = contextstore.StoreContext storePath (PUID eventInfo)
                      (record_of eventInfo runtimeInfo) (fs s).

(** A first start that stopped at the first error of extraction,
    registration, activation or classification: it returns that
    error, and the caches and the store are what they were. *)
Definition first_start_aborted (eventInfo : rpcmonitor.EventInfo)
    (s : @UIDProcessor E) (r : option error) (s' : @UIDProcessor E) : Prop :=
  exists d,
    aborted eventInfo r d
    /\ trace s' = trace s ++ (call.Start eventInfo, None) :: d
    /\ is_Some r
    /\ putoPidMap s' !! PUID eventInfo = None
    /\ putoPidMap s' = putoPidMap s
    /\ pidToPU s' = pidToPU s
    /\ fs s' = fs s.

(** The record of [contextID] is absent from the store. *)
Definition no_record (contextID : string) (s : @UIDProcessor E) : Prop :=
  os.exists_ (contextstore.folder_of storePath contextID) (fs s) = false.

End State.

End lifecycle.

(* ================================================================== *)
(** * Properties *)

Import policy rpcmonitor monitor uidmonitor lifecycle.

(** ** Library functions on strings *)

Example ParseUint32_100 : strconv.ParseUint32 "100" = Ok 100.
Proof. reflexivity. Qed.
Example ParseUint32_max : strconv.ParseUint32 "4294967295" = Ok 4294967295.
Proof. reflexivity. Qed.
Example Atoi_neg : strconv.Atoi "-12" = Ok (-12).
Proof. reflexivity. Qed.
Example LastIndex_two : strings.LastIndex "/trireme/12" "/" = 8.
Proof. reflexivity. Qed.
Example LastIndex_none : strings.LastIndex "1001" "/" = -1.
Proof. reflexivity. Qed.
Example slice_after : strings.slice_from "/trireme/12" 9 = "12".
Proof. reflexivity. Qed.
Example TrimLeft_slash : strings.TrimLeft "/12" "/" = "12".
Proof. reflexivity. Qed.
Example regStop_ok : regexp.regStop_Match "/trireme/1234" = true.
Proof. reflexivity. Qed.
Example regStop_long : regexp.regStop_Match "/trireme/1234567890123" = false.
Proof. reflexivity. Qed.

(** ** The context store *)

Section StoreProperties.
Context {T : Type}.
Variable storebasePath : string.

Local Abbreviation FS := (os.FS (contextstore.Data T)).

Lemma exists_RemoveAll_below (p q : os.Path) (fs : FS) :
  p `prefix_of` q -> os.exists_ q (os.RemoveAll p fs).2 = false.
Proof.
  intros Hpq. unfold os.exists_, os.RemoveAll; simpl.
  apply bool_decide_eq_false. intros [Hd|[d Hf]].
  - apply elem_of_filter in Hd as [Hd _]. by apply Hd.
  - apply map_lookup_filter_Some in Hf as [_ Hf]. by apply Hf.
Qed.

Lemma exists_RemoveAll_beside (p q : os.Path) (fs : FS) :
  ~ p `prefix_of` q ->
  os.exists_ q (os.RemoveAll p fs).2 = os.exists_ q fs.
Proof.
  intros Hpq. unfold os.exists_, os.RemoveAll; simpl.
  apply bool_decide_ext. split.
  - intros [Hd|[d Hf]].
    + apply elem_of_filter in Hd as [_ Hd]. by left.
    + apply map_lookup_filter_Some in Hf as [Hf _]. right; eauto.
  - intros [Hd|[d Hf]].
    + left. by apply elem_of_filter.
    + right. exists d. by apply map_lookup_filter_Some.
Qed.

Lemma RemoveContext_absent contextID (fs : FS) :
  os.exists_ (contextstore.folder_of storebasePath contextID) fs = false ->
  contextstore.RemoveContext storebasePath contextID fs
  = (Some (New ("Unknown ContextID " +:+ contextID)), fs).
Proof.
  intros Hx. unfold contextstore.RemoveContext.
  unfold mbind, state_bind, get; simpl. by rewrite Hx.
Qed.

Lemma RemoveContext_present contextID (fs : FS) :
  os.exists_ (contextstore.folder_of storebasePath contextID) fs = true ->
  contextstore.RemoveContext storebasePath contextID fs
  = os.RemoveAll (contextstore.folder_of storebasePath contextID) fs.
Proof.
  intros Hx. unfold contextstore.RemoveContext.
  unfold mbind, state_bind, get; simpl. by rewrite Hx.
Qed.

(** Whatever [RemoveContext] answers, the folder is not there
    afterwards. *)
Lemma RemoveContext_gone contextID (fs : FS) :
  os.exists_ (contextstore.folder_of storebasePath contextID)
    (contextstore.RemoveContext storebasePath contextID fs).2 = false.
Proof.
  destruct (os.exists_ (contextstore.folder_of storebasePath contextID) fs)
    eqn:Hx.
  - rewrite RemoveContext_present by done. by apply exists_RemoveAll_below.
  - by rewrite RemoveContext_absent.
Qed.


End StoreProperties.

(** ** The processor *)

Section Properties.
Context {E : Type}.
Context `{!cgnetcls.Cgroupnetcls E, !ProcessingUnitsHandler E,
          !RPCMetadataExtractor E, !EventCollector E}.
Variable storePath : string.
Variable add_replaces : bool.

Local Abbreviation UIDProcessor := (@uidmonitor.UIDProcessor E).

Ltac unfold_steps :=
  unfold netcls_Creategroup, netcls_AssignMark, netcls_AddProcess,
    netcls_DeleteCgroup, netcls_Deletebasepath, puHandler_SetPURuntime,
    puHandler_HandlePUEvent, s_metadataExtractor,
    collector_CollectContainerEvent, putoPidMap_Add, putoPidMap_Remove,
    pidToPU_Add, pidToPU_Remove, pidlist_insert, pidlist_delete,
    contextStore_StoreContext, contextStore_GetContextInfo,
    contextStore_RemoveContext, logged, or_return, warn, log, modify, get,
    on_env, on_fs, on_putoPidMap, on_pidToPU in *;
  unfold mbind, state_bind, mret, state_ret in *;
  unfold set_trace, set_env, set_fs, set_putoPidMap, set_pidToPU in *;
  simpl in *.

(** One step of the run: the next call whose answer is not known is
    given a name for its answer and for the state after it. *)
Ltac call_step :=
  match goal with
  | |- context [match ?m with pair _ _ => _ end] =>
      lazymatch m with
      | context [match _ with pair _ _ => _ end] => fail
      | _ => let Hcall := fresh "Hcall" in
             destruct m as [? ?] eqn:Hcall; simpl in *
      end
  end.

Ltac branch_step :=
  match goal with
  | |- context [match ?a with Some _ => _ | None => _ end] =>
      is_var a; destruct a; simpl in *
  | |- context [match ?a with Ok _ => _ | Err _ => _ end] =>
      is_var a; destruct a; simpl in *
  | |- context [match ?p with Ok _ => _ | Err _ => _ end] =>
      let Hparse := fresh "Hparse" in destruct p eqn:Hparse; simpl in *
  | |- context [decide ?P] =>
      destruct (decide P); simpl in *
  end.

Ltac run := repeat first [call_step | branch_step].

Ltac trace_eq := rewrite <- ?app_assoc; simpl; reflexivity.

Lemma processLinuxServiceStart_spec event runtimeInfo (s : UIDProcessor) :
  exists e d,
    (processLinuxServiceStart event runtimeInfo s).2
      = set_trace (trace s ++ d) (set_env e s)
    /\ binding (PID event) (CgroupMark (Options runtimeInfo))
         (processLinuxServiceStart event runtimeInfo s).1 d.
Proof.
  unfold processLinuxServiceStart. unfold_steps. run.
  all: eexists _, _; (split; [trace_eq|]); econstructor; eauto.
Qed.


Lemma processLinuxServiceStart_run event runtimeInfo (s s' : UIDProcessor) r :
  processLinuxServiceStart event runtimeInfo s = (r, s') ->
  exists e d,
    s' = set_trace (trace s ++ d) (set_env e s)
    /\ binding (PID event) (CgroupMark (Options runtimeInfo)) r d.
Proof.
  intros Hrun.
  destruct (processLinuxServiceStart_spec event runtimeInfo s)
    as (e & d & Hs & Hb).
  rewrite Hrun in Hs, Hb. eauto.
Qed.

Lemma processLinuxServiceStart_tables event runtimeInfo (s : UIDProcessor) :
  same_tables s (processLinuxServiceStart event runtimeInfo s).2.
Proof.
  destruct (processLinuxServiceStart_spec event runtimeInfo s)
    as (e & d & -> & _).
  by repeat split.
Qed.

(** *** The cache *)

Lemma cache_Add_lookup {V} (k : string) (v : V) (c : gmap string V) :
  is_Some ((cache.Add add_replaces k v c).2 !! k).
Proof.
  unfold cache.Add. destruct (c !! k) eqn:Hk; simpl.
  - destruct add_replaces; simpl; [rewrite lookup_insert_eq|rewrite Hk]; eauto.
  - rewrite lookup_insert_eq; eauto.
Qed.

Lemma cache_Add_fresh {V} (k : string) (v : V) (c : gmap string V) :
  c !! k = None -> cache.Add add_replaces k v c = (None, <[k := v]> c).
Proof. intros Hk. unfold cache.Add. by rewrite Hk. Qed.

Lemma cache_Add_cases {V} (k : string) (v : V) (c : gmap string V) :
  (cache.Add add_replaces k v c).2 = <[k := v]> c
  \/ (is_Some (c !! k) /\ (cache.Add add_replaces k v c).2 = c).
Proof.
  unfold cache.Add. destruct (c !! k) eqn:Hk; simpl; [|by left].
  destruct add_replaces; simpl; [by left|right; eauto].
Qed.

Lemma cache_Remove_delete {V} (k : string) (c : gmap string V) :
  (cache.Remove k c).2 = delete k c.
Proof.
  unfold cache.Remove. destruct (c !! k) eqn:Hk; simpl; [done|].
  symmetry. by apply delete_id.
Qed.

Lemma alter_as_insert {V} (f : V -> V) (k : string) (v : V) (c : gmap string V) :
  c !! k = Some v -> alter f k c = <[k := f v]> c.
Proof.
  intros Hk. apply map_eq. intros j. rewrite lookup_alter, lookup_insert.
  repeat case_decide; subst; try done. by rewrite Hk.
Qed.

(** *** The ways of [Start] *)

(** The two ways a first start can go. *)
Lemma Start_first_time eventInfo (s : UIDProcessor) :
  putoPidMap s !! PUID eventInfo = None ->
  let r := (Start storePath add_replaces eventInfo s).1 in
  let s' := (Start storePath add_replaces eventInfo s).2 in
  (exists d,
      aborted eventInfo r d /\ same_tables s s'
      /\ trace s' = trace s ++ (call.Start eventInfo, None) :: d)
  \/ (exists runtimeInfo m n aerr,
      strconv.ParseUint32 (CgroupMark (Options runtimeInfo)) = Ok m
      /\ strconv.Atoi (PID eventInfo) = Ok n
      /\ trace s' = trace s ++ (call.Start eventInfo, None)
           :: succeeded (until_bound eventInfo runtimeInfo m n)
           ++ [(call.CollectContainerEvent (telemetry eventInfo runtimeInfo), None);
               (call.PutoPidMapAdd (PUID eventInfo)
                  (first_entry eventInfo runtimeInfo), None);
               (call.PidToPUAdd (PID eventInfo) (PUID eventInfo), aerr);
               (call.StoreContext (PUID eventInfo)
                  (record_of eventInfo runtimeInfo), r)]
      /\ putoPidMap s' = <[PUID eventInfo := first_entry eventInfo runtimeInfo]>
                           (putoPidMap s)
      /\ pidToPU s' = (cache.Add add_replaces (PID eventInfo) (PUID eventInfo)
                         (pidToPU s)).2
      /\ (r, fs s') = contextstore.StoreContext storePath (PUID eventInfo)
                        (record_of eventInfo runtimeInfo) (fs s)).
Proof.
  intros Hnew r s'. subst r s'. unfold Start. unfold_steps.
  unfold cache.Get. rewrite Hnew. simpl.
  destruct (metadataExtractor eventInfo (env s)) as [[runtimeInfo|err] e1] eqn:Hx;
    simpl.
  2:{ left. eexists. split; [constructor|]. split; [by repeat split|].
      trace_eq. }
  destruct (SetPURuntime _ runtimeInfo e1) as [[err|] e2] eqn:Hs; simpl.
  { left. eexists. split; [apply registration_fails|].
    split; [by repeat split|]. trace_eq. }
  destruct (HandlePUEvent _ EventStart e2) as [[err|] e3] eqn:Hh; simpl.
  { left. eexists. split; [apply activation_fails|].
    split; [by repeat split|]. trace_eq. }
  destruct (processLinuxServiceStart eventInfo runtimeInfo _)
    as [r s4] eqn:Hb.
  apply processLinuxServiceStart_run in Hb as (e4 & d & -> & Hb).
  unfold set_trace, set_env; simpl.
  destruct r as [err|]; simpl.
  { left. eexists. split; [by apply classification_fails|].
    split; [by repeat split|]. trace_eq. }
  right. inversion Hb; subst.
  destruct (CollectContainerEvent _ e4) as [[] e5] eqn:Hc; simpl.
  rewrite cache_Add_fresh by done. simpl.
  destruct (cache.Add add_replaces (PID eventInfo) (PUID eventInfo) (pidToPU s))
    as [aerr c] eqn:Ha; simpl.
  destruct (contextstore.StoreContext _ _ _ _) as [r f] eqn:Hw; simpl.
  eexists runtimeInfo, _, _, _. split; [done|]. split; [done|].
  split; [|done]. rewrite <- ?app_assoc. simpl. reflexivity.
Qed.

(** A start of a unit that the cache knows: the two insertions, then
    the binding with the runtime of the entry. *)
Lemma Start_active eventInfo entry (s : UIDProcessor) :
  putoPidMap s !! PUID eventInfo = Some entry ->
  Start storePath add_replaces eventInfo s
  = processLinuxServiceStart eventInfo (Info entry)
      {| putoPidMap :=
           <[PUID eventInfo := entry_insert (PID eventInfo) entry]> (putoPidMap s);
         pidToPU :=
           (cache.Add add_replaces (PID eventInfo) (PUID eventInfo)
              (pidToPU s)).2;
         fs := fs s;
         env := env s;
         trace :=
           trace s
           ++ [(call.Start eventInfo, None);
               (call.PidlistInsert (PUID eventInfo) (PID eventInfo), None);
               (call.PidToPUAdd (PID eventInfo) (PUID eventInfo),
                (cache.Add add_replaces (PID eventInfo) (PUID eventInfo)
                   (pidToPU s)).1)] |}.
Proof.
  intros Hin. unfold Start. unfold_steps. unfold cache.Get. rewrite Hin.
  simpl. rewrite (alter_as_insert _ _ entry) by done.
  destruct (cache.Add add_replaces (PID eventInfo) (PUID eventInfo) (pidToPU s))
    as [aerr c] eqn:Ha; simpl.
  by rewrite <- !app_assoc.
Qed.


(** *** The ways of [Stop] *)

Lemma Stop_invalid eventInfo err (s : UIDProcessor) :
  generateContextID eventInfo = Err err ->
  Stop storePath eventInfo s = (Some err, s).
Proof. intros Hg. unfold Stop. by rewrite Hg. Qed.

Lemma Stop_base eventInfo (s : UIDProcessor) :
  generateContextID eventInfo = Ok triremeBaseCgroup ->
  Stop storePath eventInfo s
  = (None,
     {| putoPidMap := putoPidMap s; pidToPU := pidToPU s; fs := fs s;
        env := (cgnetcls.Deletebasepath triremeBaseCgroup (env s)).2;
        trace := trace s ++ [(call.Deletebasepath triremeBaseCgroup, None)] |}).
Proof.
  intros Hg. unfold Stop. rewrite Hg. unfold_steps.
  by destruct (cgnetcls.Deletebasepath _ _).
Qed.

Lemma resolved_unit_Get contextID (s : UIDProcessor) :
  match cache.Get (strings.TrimLeft contextID "/") (pidToPU s) with
  | Ok puid => puid
  | Err _ => contextID
  end = resolved_unit contextID s.
Proof.
  unfold resolved_unit, stopped_process, cache.Get.
  by destruct (pidToPU s !! _).
Qed.

Lemma Stop_unknown eventInfo contextID (s : UIDProcessor) :
  generateContextID eventInfo = Ok contextID ->
  contextID <> triremeBaseCgroup ->
  putoPidMap s !! resolved_unit contextID s = None ->
  Stop storePath eventInfo s = (None, s).
Proof.
  intros Hg Hb Hn. unfold Stop. rewrite Hg.
  destruct (decide _) as [|_]; [done|]. unfold_steps.
  rewrite resolved_unit_Get. unfold cache.Get. by rewrite Hn.
Qed.

(** A stop that leaves members behind. *)
Lemma Stop_member eventInfo contextID ctx (s : UIDProcessor) :
  generateContextID eventInfo = Ok contextID ->
  contextID <> triremeBaseCgroup ->
  putoPidMap s !! resolved_unit contextID s = Some ctx ->
  pidlist ctx ∖ {[stopped_process contextID]} <> ∅ ->
  let pid := stopped_process contextID in
  let unit := resolved_unit contextID s in
  let removed := cache.Remove pid (pidToPU s) in
  let deleted := cgnetcls.DeleteCgroup pid (env s) in
  Stop storePath eventInfo s
  = (deleted.1,
     {| putoPidMap := <[unit := entry_delete pid ctx]> (putoPidMap s);
        pidToPU := removed.2; fs := fs s; env := deleted.2;
        trace := trace s
                 ++ [(call.PidlistDelete unit pid, None);
                     (call.PidToPURemove pid, removed.1);
                     (call.DeleteCgroup pid, deleted.1)] |}).
Proof.
  intros Hg Hb Hin Hne pid unit removed deleted.
  subst removed deleted unit pid. unfold stopped_process in *.
  unfold Stop. rewrite Hg.
  destruct (decide _) as [|_]; [done|]. unfold_steps.
  rewrite resolved_unit_Get. unfold cache.Get. rewrite Hin. simpl.
  rewrite (alter_as_insert _ _ ctx) by done.
  destruct (cache.Remove _ (pidToPU s)) as [rerr c] eqn:Hr; simpl.
  destruct (decide _) as [_|Hz].
  2:{ exfalso. apply Hz. intros Hs. apply size_empty_iff in Hs.
      apply Hne. by apply leibniz_equiv. }
  simpl. destruct (cgnetcls.DeleteCgroup _ (env s)) as [derr e] eqn:Hd.
  simpl. by rewrite <- !app_assoc.
Qed.

(** A stop that takes the last member away. *)
Lemma Stop_last eventInfo contextID ctx (s : UIDProcessor) :
  generateContextID eventInfo = Ok contextID ->
  contextID <> triremeBaseCgroup ->
  putoPidMap s !! resolved_unit contextID s = Some ctx ->
  pidlist ctx ∖ {[stopped_process contextID]} = ∅ ->
  let pid := stopped_process contextID in
  let unit := resolved_unit contextID s in
  let removed := cache.Remove pid (pidToPU s) in
  let stopped := HandlePUEvent (publishedContextID ctx) EventStop (env s) in
  let cleaned := contextstore.RemoveContext storePath unit (fs s) in
  let destroyed :=
    HandlePUEvent (publishedContextID ctx) EventDestroy stopped.2 in
  let deleted := cgnetcls.DeleteCgroup pid destroyed.2 in
  Stop storePath eventInfo s
  = (deleted.1,
     {| putoPidMap := delete unit (putoPidMap s);
        pidToPU := removed.2; fs := cleaned.2; env := deleted.2;
        trace := trace s
                 ++ [(call.PidlistDelete unit pid, None);
                     (call.PidToPURemove pid, removed.1);
                     (call.HandlePUEvent (publishedContextID ctx) EventStop,
                      stopped.1);
                     (call.PutoPidMapRemove unit, None);
                     (call.RemoveContext unit, cleaned.1);
                     (call.HandlePUEvent (publishedContextID ctx) EventDestroy,
                      destroyed.1);
                     (call.DeleteCgroup pid, deleted.1)] |}).
Proof.
  intros Hg Hb Hin He pid unit removed stopped cleaned destroyed deleted.
  subst deleted destroyed stopped cleaned removed unit pid.
  unfold stopped_process in *. unfold Stop. rewrite Hg.
  destruct (decide _) as [|_]; [done|]. unfold_steps.
  rewrite resolved_unit_Get. unfold cache.Get. rewrite Hin. simpl.
  rewrite (alter_as_insert _ _ ctx) by done.
  destruct (cache.Remove _ (pidToPU s)) as [rerr c] eqn:Hr; simpl.
  destruct (decide _) as [Hz|_].
  { exfalso. apply Hz. rewrite He. apply size_empty. }
  simpl.
  destruct (HandlePUEvent (publishedContextID ctx) EventStop (env s))
    as [serr e1] eqn:Hs; simpl.
  unfold cache.Remove at 1. rewrite lookup_insert_eq. simpl.
  destruct (contextstore.RemoveContext storePath _ (fs s))
    as [cerr f] eqn:Hc; simpl.
  destruct (HandlePUEvent (publishedContextID ctx) EventDestroy e1)
    as [derr e2] eqn:Hd; simpl.
  destruct (cgnetcls.DeleteCgroup _ e2) as [gerr e3] eqn:Hdel; simpl.
  rewrite delete_insert_eq. by rewrite <- !app_assoc.
Qed.


(** *** The index and the member sets *)

Lemma index_sound_tables (s s' : UIDProcessor) :
  putoPidMap s' = putoPidMap s -> pidToPU s' = pidToPU s ->
  index_sound s -> index_sound s'.
Proof. unfold index_sound. intros -> ->. auto. Qed.

(** What [cache.Add] leaves in the index: the new pair, or what was
    there. *)
Lemma index_after_Add pid unit pid' unit' (c : gmap string string) :
  (cache.Add add_replaces pid unit c).2 !! pid' = Some unit' ->
  (pid' = pid /\ unit' = unit) \/ c !! pid' = Some unit'.
Proof.
  intros Hl.
  destruct (cache_Add_cases pid unit c) as [Hc|[_ Hc]]; rewrite Hc in Hl;
    [|by right].
  rewrite lookup_insert in Hl. case_decide; [left|by right].
  by simplify_eq.
Qed.

Lemma index_sound_Start eventInfo (s : UIDProcessor) :
  index_sound s -> index_sound (Start storePath add_replaces eventInfo s).2.
Proof.
  intros Hs.
  destruct (putoPidMap s !! PUID eventInfo) as [entry|] eqn:Hu.
  - rewrite (Start_active _ entry) by done.
    match goal with
    | |- index_sound (processLinuxServiceStart _ _ ?s1).2 =>
        destruct (processLinuxServiceStart_tables eventInfo (Info entry) s1)
          as (Hp & Hi & _)
    end.
    intros pid unit. rewrite Hp, Hi. simpl. intros Hpid.
    apply index_after_Add in Hpid as [[-> ->]|Hold].
    + rewrite lookup_insert_eq. eexists. split; [done|]. simpl. set_solver.
    + destruct (Hs _ _ Hold) as (e' & He' & Hin).
      rewrite lookup_insert. case_decide; [|eauto]. subst unit.
      eexists. split; [done|]. simplify_eq. simpl. set_solver.
  - destruct (Start_first_time eventInfo s Hu)
      as [(d & _ & (Hp & Hi & _) & _)
         |(rt & m & n & aerr & _ & _ & _ & Hp & Hi & _)].
    + by eapply index_sound_tables.
    + intros pid unit. rewrite Hp, Hi. intros Hpid.
      apply index_after_Add in Hpid as [[-> ->]|Hold].
      * rewrite lookup_insert_eq. eexists. split; [done|]. simpl. set_solver.
      * destruct (Hs _ _ Hold) as (e' & He' & Hin).
        rewrite lookup_insert_ne by congruence. eauto.
Qed.

Lemma index_sound_Stop eventInfo (s : UIDProcessor) :
  index_sound s -> index_sound (Stop storePath eventInfo s).2.
Proof.
  intros Hs.
  destruct (generateContextID eventInfo) as [contextID|err] eqn:Hg.
  2:{ by rewrite (Stop_invalid _ err). }
  destruct (decide (contextID = triremeBaseCgroup)) as [->|Hb].
  { rewrite Stop_base by done. by eapply index_sound_tables. }
  destruct (putoPidMap s !! resolved_unit contextID s) as [ctx|] eqn:Hu.
  2:{ by rewrite (Stop_unknown _ contextID). }
  destruct (decide (pidlist ctx ∖ {[stopped_process contextID]} = ∅))
    as [He|Hne].
  - rewrite (Stop_last _ contextID ctx) by done. simpl.
    intros pid unit. simpl. rewrite cache_Remove_delete. intros Hpid.
    apply lookup_delete_Some in Hpid as [Hneq Hold].
    destruct (Hs _ _ Hold) as (e' & He' & Hin).
    rewrite lookup_delete_ne; [eauto|].
    intros <-. simplify_eq. set_solver.
  - rewrite (Stop_member _ contextID ctx) by done. simpl.
    intros pid unit. simpl. rewrite cache_Remove_delete. intros Hpid.
    apply lookup_delete_Some in Hpid as [Hneq Hold].
    destruct (Hs _ _ Hold) as (e' & He' & Hin).
    rewrite lookup_insert. case_decide; [|eauto]. subst unit.
    eexists. split; [done|]. simplify_eq. simpl. set_solver.
Qed.

Lemma replay_cons pid pids eventInfo (s : UIDProcessor) :
  replay storePath add_replaces (pid :: pids) eventInfo s
  = replay storePath add_replaces pids (set_PID pid eventInfo)
      (Start storePath add_replaces (set_PID pid eventInfo) s).2.
Proof.
  simpl. unfold warn, mbind, state_bind, mret, state_ret.
  by destruct (Start _ _ _ _).
Qed.

Lemma index_sound_replay pids eventInfo (s : UIDProcessor) :
  index_sound s ->
  index_sound (replay storePath add_replaces pids eventInfo s).2.
Proof.
  revert eventInfo s.
  induction pids as [|pid pids IH]; intros eventInfo s Hs; [done|].
  rewrite replay_cons. apply IH. by apply index_sound_Start.
Qed.

(** One turn of the second loop of [ReSync], by the answer of the
    store and by the mark of the record. *)
Lemma resync_one_run marktoPID contextID (s : UIDProcessor) :
  let got := contextstore.GetContextInfo storePath ("/" +:+ contextID) (fs s) in
  let s1 :=
    {| putoPidMap := putoPidMap s; pidToPU := pidToPU s; fs := got.2;
       env := env s;
       trace := trace s
                ++ [(call.GetContextInfo ("/" +:+ contextID), error_of got.1)] |} in
  (resync_one storePath add_replaces marktoPID contextID s).2
  = match got.1 with
    | Err _ => s1
    | Ok storedPU =>
        match marktoPID !! MarkVal storedPU with
        | None =>
            let removed :=
              contextstore.RemoveContext storePath ("/" +:+ contextID) got.2 in
            {| putoPidMap := putoPidMap s; pidToPU := pidToPU s;
               fs := removed.2; env := env s;
               trace := trace s1
                        ++ [(call.RemoveContext ("/" +:+ contextID), removed.1)] |}
        | Some pids =>
            (replay storePath add_replaces pids (EventInfo storedPU) s1).2
        end
    end.
Proof.
  intros got s1. subst got s1. unfold resync_one. unfold_steps.
  destruct (contextstore.GetContextInfo _ _ _) as [[storedPU|err] f] eqn:Hg;
    simpl; [|done].
  destruct (marktoPID !! MarkVal storedPU) as [pids|]; simpl; [done|].
  destruct (contextstore.RemoveContext _ _ _) as [rerr f'] eqn:Hr; simpl.
  done.
Qed.

Lemma index_sound_resync_one marktoPID contextID (s : UIDProcessor) :
  index_sound s ->
  index_sound (resync_one storePath add_replaces marktoPID contextID s).2.
Proof.
  intros Hs. rewrite resync_one_run.
  destruct (contextstore.GetContextInfo _ _ _).1 as [storedPU|err].
  2:{ by eapply index_sound_tables. }
  destruct (marktoPID !! MarkVal storedPU) as [pids|].
  - apply index_sound_replay. by eapply index_sound_tables.
  - by eapply index_sound_tables.
Qed.

Lemma drain_cons marktoPID contextID walker (s : UIDProcessor) :
  contextID <> "" ->
  drain storePath add_replaces marktoPID (contextID :: walker) s
  = drain storePath add_replaces marktoPID walker
      (resync_one storePath add_replaces marktoPID contextID s).2.
Proof.
  intros Hne. simpl. destruct (decide _) as [|_]; [done|].
  unfold mbind, state_bind. by destruct (resync_one _ _ _ _ _).
Qed.

Lemma index_sound_drain marktoPID walker (s : UIDProcessor) :
  index_sound s ->
  index_sound (drain storePath add_replaces marktoPID walker s).2.
Proof.
  revert s. induction walker as [|contextID walker IH]; intros s Hs; [done|].
  destruct (decide (contextID = "")) as [->|Hne]; [done|].
  rewrite drain_cons by done. apply IH. by apply index_sound_resync_one.
Qed.

Lemma collect_marks_caches cgroups marktoPID (s : UIDProcessor) :
  putoPidMap (collect_marks cgroups marktoPID s).2 = putoPidMap s
  /\ pidToPU (collect_marks cgroups marktoPID s).2 = pidToPU s.
Proof.
  revert marktoPID s.
  induction cgroups as [|cgroup cgroups IH]; intros marktoPID s; [done|].
  simpl. unfold_steps. destruct (decide _); simpl.
  - destruct (cgnetcls.DeleteCgroup cgroup (env s)) as [derr e']; simpl.
    match goal with
    | |- context [collect_marks cgroups marktoPID ?s1] =>
        destruct (IH marktoPID s1) as [-> ->]
    end. done.
  - apply IH.
Qed.

Lemma ReSync_run e walker (s : UIDProcessor) :
  contextstore.WalkStore storePath (fs s) = Ok walker ->
  let marks := collect_marks (cgnetcls.GetCgroupList (env s)) ∅ s in
  ReSync storePath add_replaces e s
  = (None, (drain storePath add_replaces marks.1 walker marks.2).2).
Proof.
  intros Hw marks. subst marks. unfold ReSync.
  unfold mbind, state_bind, get; simpl. rewrite Hw.
  destruct (collect_marks _ _ _) as [marktoPID s1]; simpl.
  by destruct (drain _ _ _ _ _).
Qed.

Lemma index_sound_ReSync e (s : UIDProcessor) :
  index_sound s -> index_sound (ReSync storePath add_replaces e s).2.
Proof.
  intros Hs.
  destruct (contextstore.WalkStore storePath (fs s)) as [walker|err] eqn:Hw.
  - rewrite (ReSync_run _ walker) by done. simpl.
    apply index_sound_drain.
    match goal with
    | |- index_sound (collect_marks ?c ?m s).2 =>
        destruct (collect_marks_caches c m s) as [Hp Hi]
    end.
    by eapply index_sound_tables.
  - unfold ReSync. unfold mbind, state_bind, get; simpl. by rewrite Hw.
Qed.

Lemma index_sound_run o (s : UIDProcessor) :
  index_sound s -> index_sound (run storePath add_replaces o s).2.
Proof.
  intros Hs. destruct o as [e|e|e|e|e|e]; simpl.
  - unfold Create. unfold_steps.
    destruct (HandlePUEvent _ _ _); simpl. by eapply index_sound_tables.
  - by apply index_sound_Start.
  - by apply index_sound_Stop.
  - unfold Pause. destruct (generateContextID e) as [c|[msg]]; [|done].
    unfold_steps.
    destruct (HandlePUEvent _ _ _); simpl. by eapply index_sound_tables.
  - done.
  - by apply index_sound_ReSync.
Qed.

(** C3, amended. In every state that the processor reaches from empty
    caches by Create, Start, Stop, Pause, Destroy and ReSync, a process
    of the index maps to a unit that has a Membership Entry, and that
    entry has the process among its members. *)
Theorem reachable_index_sound (s : UIDProcessor) :
  reachable storePath add_replaces s -> index_sound s.
Proof.
  induction 1 as [s Hp Hi|o s _ IH].
  - intros pid unit. rewrite Hi, lookup_empty. done.
  - by apply index_sound_run.
Qed.

(** *** Start *)

Lemma aborted_is_error eventInfo d : ~ aborted eventInfo None d.
Proof. inversion 1. Qed.

(** C2, amended. A first start (the unit has no Membership Entry) goes
    one of two ways. Either it makes, in this order and each after the
    previous one succeeded, the calls for metadata extraction, runtime
    registration under the unit id followed by the mark, Start
    activation, the classifier binding, the telemetry record, the
    creation of the Membership Entry and of the index entry, and last
    the write of the Context Record, whose error it returns. Or it
    returns the first error met in extraction, registration, activation
    or classification and stops there: the unit still has no Membership
    Entry, and the index and the store are exactly as they were before,
    so nothing was created. *)
Theorem Start_first_time_sequence eventInfo (s : UIDProcessor) :
  putoPidMap s !! PUID eventInfo = None ->
  let r := (Start storePath add_replaces eventInfo s).1 in
  let s' := (Start storePath add_replaces eventInfo s).2 in
  first_start_completed storePath eventInfo s r s'
  \/ first_start_aborted eventInfo s r s'.
Proof.
  intros Hnew r s'.
  destruct (Start_first_time eventInfo s Hnew)
    as [(d & Hd & (Hp & Hi & Hf) & Ht)
       |(rt & m & n & aerr & _ & _ & Ht & Hp & Hi & Hf)].
  - right. exists d. fold r s' in Hd, Hp, Hi, Hf, Ht.
    repeat split; try done.
    + destruct r; [eauto|]. by apply aborted_is_error in Hd.
    + by rewrite Hp.
  - left. exists rt, m, n, aerr. fold r s' in Ht, Hp, Hi, Hf.
    repeat split; try done.
    + by rewrite Hp, lookup_insert_eq.
    + rewrite Hi. apply cache_Add_lookup.
Qed.


(** *** Stop *)

(** C6. A stop that takes away the last member of a unit tells the
    policy handler to stop the published identifier, removes the
    Membership Entry, removes the Context Record, tells the policy
    handler to destroy the published identifier and deletes the cgroup of
    the stopped process, in this order and whatever each of these calls
    returns; the policy handler is called exactly twice, Stop then
    Destroy; the stop returns what the deletion of the cgroup returns. *)
Theorem Stop_last_member_teardown eventInfo contextID ctx (s : UIDProcessor) :
  generateContextID eventInfo = Ok contextID ->
  contextID <> triremeBaseCgroup ->
  putoPidMap s !! resolved_unit contextID s = Some ctx ->
  pidlist ctx ∖ {[stopped_process contextID]} = ∅ ->
  let pid := stopped_process contextID in
  let unit := resolved_unit contextID s in
  let published := publishedContextID ctx in
  let r := (Stop storePath eventInfo s).1 in
  let s' := (Stop storePath eventInfo s).2 in
  let stopped := HandlePUEvent published EventStop (env s) in
  let destroyed := HandlePUEvent published EventDestroy stopped.2 in
  exists d,
    trace s' = trace s ++ d
    /\ d = [(call.PidlistDelete unit pid, None);
            (call.PidToPURemove pid, (cache.Remove pid (pidToPU s)).1);
            (call.HandlePUEvent published EventStop, stopped.1);
            (call.PutoPidMapRemove unit, None);
            (call.RemoveContext unit,
             (contextstore.RemoveContext storePath unit (fs s)).1);
            (call.HandlePUEvent published EventDestroy, destroyed.1);
            (call.DeleteCgroup pid, r)]
    /\ r = (cgnetcls.DeleteCgroup pid destroyed.2).1
    /\ filter is_HandlePUEvent d
       = [(call.HandlePUEvent published EventStop, stopped.1);
          (call.HandlePUEvent published EventDestroy, destroyed.1)]
    /\ putoPidMap s' !! unit = None
    /\ pidToPU s' !! pid = None
    /\ no_record storePath unit s'.
Proof.
  intros Hg Hb Hin He pid unit published r s' stopped destroyed.
  subst r s'. rewrite (Stop_last _ contextID ctx) by done. simpl.
  eexists. split; [done|]. repeat split.
  - apply lookup_delete_eq.
  - rewrite cache_Remove_delete. apply lookup_delete_eq.
  - unfold no_record. simpl. apply RemoveContext_gone.
Qed.

(** C9. A stop whose generated identifier is the base cgroup path asks
    the classifier to delete that path and does nothing else: it
    returns no error, the two caches and the store are untouched, and
    the one call recorded is that deletion. *)
Theorem Stop_base_path eventInfo (s : UIDProcessor) :
  generateContextID eventInfo = Ok triremeBaseCgroup ->
  Stop storePath eventInfo s
  = (None,
     {| putoPidMap := putoPidMap s; pidToPU := pidToPU s; fs := fs s;
        env := (cgnetcls.Deletebasepath triremeBaseCgroup (env s)).2;
        trace := trace s ++ [(call.Deletebasepath triremeBaseCgroup, None)] |}).
Proof. apply Stop_base. Qed.

(** C10. A stop for a process that the index maps to a unit without a
    Membership Entry returns no error and changes nothing: the index
    entry stays, and no call is made to the classifier, to the store or
    to the policy handler. *)
Theorem Stop_stale_index eventInfo contextID unit (s : UIDProcessor) :
  generateContextID eventInfo = Ok contextID ->
  contextID <> triremeBaseCgroup ->
  pidToPU s !! stopped_process contextID = Some unit ->
  putoPidMap s !! unit = None ->
  Stop storePath eventInfo s = (None, s).
Proof.
  intros Hg Hb Hi Hu. apply (Stop_unknown _ contextID); [done..|].
  unfold resolved_unit. by rewrite Hi.
Qed.



(** *** ReSync *)





Lemma set_PID_again pid pid' eventInfo :
  set_PID pid' (set_PID pid eventInfo) = set_PID pid' eventInfo.
Proof. done. Qed.





End Properties.

(* ------------------------------------------------------------------ *)
(** ** Scenarios *)

(** The lemmas below run the processor with the collaborators of [mock];
    [cache.Add] refuses a key that is present unless said otherwise. *)

Local Abbreviation Start_ := (Start mock.storePath false).
Local Abbreviation Stop_ := (Stop mock.storePath).

(** C1. The classifier binding of a start fails after the cgroup was
    created and the cgroup is still there when the error is returned:
    once because the mark of the runtime is not a number, once because the
    process identifier is not a number. In both runs the last call to the
    classifier is not [DeleteCgroup]. *)
Theorem binding_error_keeps_cgroup :
  let bad_mark := Start_ (mock.event "u1" "7") (mock.fresh mock.never "abc") in
  let bad_pid := Start_ (mock.event "u1" "x7") (mock.fresh mock.never "100") in
  (bad_mark.1 = Some (strconv.syntax_error "ParseUint" "abc")
   /\ (trace bad_mark.2).*1
      = [ call.Start (mock.event "u1" "7");
          call.MetadataExtractor (mock.event "u1" "7");
          call.SetPURuntime "u1abc" (mock.with_mark "abc");
          call.HandlePUEvent "u1abc" EventStart;
          call.Creategroup "7" ]
   /\ mock.cgroups (env bad_mark.2) !! "7" = Some ("", [])
   /\ putoPidMap bad_mark.2 !! "u1" = None)
  /\ (bad_pid.1 = Some (strconv.syntax_error "Atoi" "x7")
      /\ (trace bad_pid.2).*1
         = [ call.Start (mock.event "u1" "x7");
             call.MetadataExtractor (mock.event "u1" "x7");
             call.SetPURuntime "u1100" (mock.with_mark "100");
             call.HandlePUEvent "u1100" EventStart;
             call.Creategroup "x7";
             call.AssignMark "x7" 100 ]
      /\ mock.cgroups (env bad_pid.2) !! "x7" = Some ("100", [])
      /\ putoPidMap bad_pid.2 !! "u1" = None).
Proof. vm_compute. repeat split; reflexivity. Qed.

(** C2, as stated, fails. The controller is started again over a store
    that holds the record of a unit; the caches are empty, so a start for
    that unit is a first start; metadata extraction fails; the record is
    still in the store afterwards. *)
Lemma failed_Start_keeps_record :
  let before :=
    mock.restarted mock.extraction_fails
      (Start_ (mock.event "u1" "7") (mock.fresh mock.never "100")).2 in
  let run := Start_ (mock.event "u1" "7") before in
  putoPidMap before !! "u1" = None
  /\ run.1 = Some (New "refused")
  /\ trace run.2
     = [ (call.Start (mock.event "u1" "7"), None);
         (call.MetadataExtractor (mock.event "u1" "7"), Some (New "refused")) ]
  /\ os.exists_ (contextstore.folder_of mock.storePath "u1") (fs run.2) = true
  /\ ~ no_record mock.storePath "u1" run.2.
Proof.
  assert (os.exists_ (contextstore.folder_of mock.storePath "u1")
            (fs (Start_ (mock.event "u1" "7")
                   (mock.restarted mock.extraction_fails
                      (Start_ (mock.event "u1" "7")
                         (mock.fresh mock.never "100")).2)).2) = true) as Hx.
  { vm_compute. reflexivity. }
  simpl. split; [reflexivity|]. split; [vm_compute; reflexivity|].
  split; [vm_compute; reflexivity|]. split; [exact Hx|].
  unfold no_record. rewrite Hx. discriminate.
Qed.

(** The amended C2 at a first start that runs to its end. *)
Lemma Start_first_time_sequence_witness :
  let s := mock.fresh mock.never "100" in
  let eventInfo := mock.event "u1" "7" in
  putoPidMap s !! PUID eventInfo = None
  /\ (first_start_completed mock.storePath eventInfo s
        (Start_ eventInfo s).1 (Start_ eventInfo s).2
      \/ first_start_aborted eventInfo s
           (Start_ eventInfo s).1 (Start_ eventInfo s).2).
Proof.
  split; [reflexivity|].
  apply (Start_first_time_sequence mock.storePath false
           (mock.event "u1" "7") (mock.fresh mock.never "100")).
  reflexivity.
Defined.

(** C3, as stated, fails. Two units are started with the same process:
    whatever [cache.Add] does with the second pair, the index maps the
    process to one of the units and the other unit lists it too. *)
Lemma process_in_two_units :
  let twice add_replaces :=
    (Start mock.storePath add_replaces (mock.event "b" "5")
       (Start mock.storePath add_replaces (mock.event "a" "5")
          (mock.fresh mock.never "100")).2).2 in
  (reachable mock.storePath false (twice false)
   /\ pidToPU (twice false) !! "5" = Some "a"
   /\ putoPidMap (twice false) !! "b"
      = Some (first_entry (mock.event "b" "5") (mock.with_mark "100"))
   /\ ~ index_exclusive (twice false))
  /\ (reachable mock.storePath true (twice true)
      /\ pidToPU (twice true) !! "5" = Some "b"
      /\ putoPidMap (twice true) !! "a"
         = Some (first_entry (mock.event "a" "5") (mock.with_mark "100"))
      /\ ~ index_exclusive (twice true)).
Proof.
  intros twice.
  assert (forall b, reachable mock.storePath b (twice b)) as Hreach.
  { intros b. unfold twice.
    apply (reach_run mock.storePath b (OpStart (mock.event "b" "5"))).
    apply (reach_run mock.storePath b (OpStart (mock.event "a" "5"))).
    by apply reach_new. }
  assert (pidToPU (twice false) !! "5" = Some "a") as Hf by (vm_compute; reflexivity).
  assert (putoPidMap (twice false) !! "b"
          = Some (first_entry (mock.event "b" "5") (mock.with_mark "100")))
    as Hfb by (vm_compute; reflexivity).
  assert (pidToPU (twice true) !! "5" = Some "b") as Ht by (vm_compute; reflexivity).
  assert (putoPidMap (twice true) !! "a"
          = Some (first_entry (mock.event "a" "5") (mock.with_mark "100")))
    as Hta by (vm_compute; reflexivity).
  split; (split; [apply Hreach|]); (split; [done|]); (split; [done|]).
  - intros Hex. specialize (Hex "5" "a" "b" _ Hf Hfb).
    assert ("b" = "a") as Heq; [apply Hex; simpl; set_solver|discriminate Heq].
  - intros Hex. specialize (Hex "5" "b" "a" _ Ht Hta).
    assert ("a" = "b") as Heq; [apply Hex; simpl; set_solver|discriminate Heq].
Qed.

(** The amended C3 after a start. *)
Lemma reachable_index_sound_witness :
  let s := (Start_ (mock.event "a" "5") (mock.fresh mock.never "100")).2 in
  reachable mock.storePath false s /\ index_sound s.
Proof.
  assert (reachable mock.storePath false
            (Start_ (mock.event "a" "5") (mock.fresh mock.never "100")).2) as Hr.
  { apply (reach_run mock.storePath false (OpStart (mock.event "a" "5"))).
    apply reach_new; reflexivity. }
  split; [exact Hr|].
  exact (reachable_index_sound mock.storePath false _ Hr).
Defined.


(** C6 at the stop of the only process of a unit, while the policy
    handler refuses every event: the teardown goes through all its
    steps. *)
Lemma Stop_last_member_teardown_witness :
  let s :=
    mock.from_now_on mock.policy_fails
      (Start_ (mock.event "u1" "7") (mock.fresh mock.never "100")).2 in
  let eventInfo := mock.release "7" in
  let ctx := first_entry (mock.event "u1" "7") (mock.with_mark "100") in
  (generateContextID eventInfo = Ok "/7"
   /\ "/7" <> triremeBaseCgroup
   /\ putoPidMap s !! resolved_unit "/7" s = Some ctx
   /\ pidlist ctx ∖ {[stopped_process "/7"]} = ∅)
  /\ (Stop_ eventInfo s).1 = None
  /\ trace (Stop_ eventInfo s).2
     = trace s
       ++ [(call.PidlistDelete "u1" "7", None);
           (call.PidToPURemove "7", None);
           (call.HandlePUEvent "u1100" EventStop, Some (New "refused"));
           (call.PutoPidMapRemove "u1", None);
           (call.RemoveContext "u1", None);
           (call.HandlePUEvent "u1100" EventDestroy, Some (New "refused"));
           (call.DeleteCgroup "7", None)].
Proof.
  set (s := mock.from_now_on mock.policy_fails
              (Start_ (mock.event "u1" "7") (mock.fresh mock.never "100")).2).
  set (ctx := first_entry (mock.event "u1" "7") (mock.with_mark "100")).
  assert (generateContextID (mock.release "7") = Ok "/7") as Hg by reflexivity.
  assert ("/7" <> triremeBaseCgroup) as Hb by discriminate.
  assert (putoPidMap s !! resolved_unit "/7" s = Some ctx) as Hin
    by (vm_compute; reflexivity).
  assert (pidlist ctx ∖ {[stopped_process "/7"]} = ∅) as He
    by (vm_compute; reflexivity).
  simpl. split; [by repeat split|].
  destruct (Stop_last_member_teardown mock.storePath (mock.release "7") "/7"
              ctx s Hg Hb Hin He) as (d & Ht & Hd & Hr & _).
  split.
  - rewrite Hr. vm_compute. reflexivity.
  - rewrite Ht, Hd. vm_compute. reflexivity.
Defined.


(** C9 at a stop under the unit name trireme. *)
Lemma Stop_base_path_witness :
  let s := (Start_ (mock.event "u1" "7") (mock.fresh mock.never "100")).2 in
  let eventInfo := mock.event "trireme" "" in
  generateContextID eventInfo = Ok triremeBaseCgroup
  /\ Stop_ eventInfo s
     = (None,
        {| putoPidMap := putoPidMap s; pidToPU := pidToPU s; fs := fs s;
           env := (cgnetcls.Deletebasepath triremeBaseCgroup (env s)).2;
           trace := trace s ++ [(call.Deletebasepath triremeBaseCgroup, None)] |}).
Proof.
  split; [reflexivity|].
  apply (Stop_base_path mock.storePath (mock.event "trireme" "")).
  reflexivity.
Defined.

(** C10 at an index that maps process 7 to a unit the cache does not
    hold. *)
Lemma Stop_stale_index_witness :
  let s :=
    {| putoPidMap := ∅; pidToPU := {["7" := "u1"]}; fs := mock.empty_fs;
       env := env (mock.fresh mock.never "100"); trace := [] |} in
  let eventInfo := mock.release "7" in
  (generateContextID eventInfo = Ok "/7"
   /\ "/7" <> triremeBaseCgroup
   /\ pidToPU s !! stopped_process "/7" = Some "u1"
   /\ putoPidMap s !! "u1" = None)
  /\ Stop_ eventInfo s = (None, s).
Proof.
  assert ("/7" <> triremeBaseCgroup) as Hb by discriminate.
  split; [by repeat split|].
  apply (Stop_stale_index mock.storePath (mock.release "7") "/7" "u1");
    [reflexivity|exact Hb|reflexivity|reflexivity].
Defined.

(** ReSync over a store with the record of one unit, while two cgroups
    carry its mark, one process each: [Start] is replayed twice, once for
    each process, with the unit of the record. *)
Example ReSync_two_processes :
  let started :=
    (Start_ (mock.event "u1" "8")
       (Start_ (mock.event "u1" "7") (mock.fresh mock.never "100")).2).2 in
  let run :=
    ReSync mock.storePath false (mock.event "" "")
      (mock.restarted mock.never started) in
  run.1 = None
  /\ starts (trace run.2) = [mock.event "u1" "7"; mock.event "u1" "8"]
  /\ dom (putoPidMap run.2) = {["u1"]}
  /\ pidToPU run.2 = {["7" := "u1"; "8" := "u1"]}.
Proof. vm_compute. repeat split; reflexivity. Qed.

(** ReSync over a store with the record of a unit whose mark no cgroup
    carries: the record is removed, nothing is replayed. *)
Example ReSync_dead_record :
  let started :=
    (Start_ (mock.event "u1" "7") (mock.fresh mock.never "100")).2 in
  let gone :=
    {| putoPidMap := ∅; pidToPU := ∅; fs := fs started;
       env := env (mock.fresh mock.never "100"); trace := [] |} in
  let run := ReSync mock.storePath false (mock.event "" "") gone in
  run.1 = None
  /\ (trace run.2).*1 = [call.GetContextInfo "/u1"; call.RemoveContext "/u1"]
  /\ no_record mock.storePath "u1" run.2.
Proof. vm_compute. repeat split; reflexivity. Qed.

(** A record that does not decode: [GetContextInfo] fails and the
    directory of the unit is no longer there. *)
Example GetContextInfo_corrupted :
  let started :=
    (Start_ (mock.event "u1" "7") (mock.fresh mock.never "100")).2 in
  let got :=
    contextstore.GetContextInfo mock.storePath "u1"
      (mock.corrupted "u1" (fs started)) in
  os.exists_ (contextstore.folder_of mock.storePath "u1") (fs started) = true
  /\ got.1 = Err (New "invalid character looking for beginning of value")
  /\ os.exists_ (contextstore.folder_of mock.storePath "u1") got.2 = false.
Proof. vm_compute. repeat split; reflexivity. Qed.



(* ================================================================== *)
(** * Further properties *)

(** ** The last component of a path *)

Section LastComponent.

Local Abbreviation after_last_slash s :=
  (strings.slice_from s (strings.LastIndex s "/" + 1)).

Lemma slashless_cons c s :
  strings.slashless (String c s) = true <->
  c <> "/"%char /\ strings.slashless s = true.
Proof.
  unfold strings.slashless. simpl. rewrite andb_true_iff, negb_true_iff.
  by rewrite Ascii.eqb_neq.
Qed.

Lemma prefix_slash_cons c s :
  String.prefix "/" (String c s) = Ascii.eqb c "/".
Proof.
  change (String.prefix "/" (String c s))
    with (if ascii_dec "/" c then String.prefix "" s else false).
  destruct (ascii_dec "/" c) as [<-|Hne].
  - by destruct s.
  - symmetry. apply Ascii.eqb_neq. congruence.
Qed.

Lemma LastIndex_from_slashless s i last :
  strings.slashless s = true -> strings.LastIndex_from "/" s i last = last.
Proof.
  revert i last. induction s as [|c s IH]; intros i last Hs; [done|].
  apply slashless_cons in Hs as [Hc Hs].
  cbn [strings.LastIndex_from]. rewrite prefix_slash_cons.
  apply Ascii.eqb_neq in Hc. rewrite Hc. by apply IH.
Qed.

Lemma LastIndex_from_app pre n i last :
  strings.slashless n = true ->
  strings.LastIndex_from "/" (pre +:+ String "/" n) i last
  = i + Z.of_nat (String.length pre).
Proof.
  intros Hn. revert i last. induction pre as [|c pre IH]; intros i last.
  - change ("" +:+ String "/" n) with (String "/" n).
    cbn [strings.LastIndex_from]. rewrite prefix_slash_cons.
    rewrite Ascii.eqb_refl. rewrite LastIndex_from_slashless by done.
    simpl. lia.
  - change (String c pre +:+ String "/" n)
      with (String c (pre +:+ String "/" n)).
    cbn [strings.LastIndex_from]. rewrite IH.
    cbn [String.length]. lia.
Qed.

Lemma substring_all s : String.substring 0 (String.length s) s = s.
Proof. induction s as [|c s IH]; [done|]. simpl. by rewrite IH. Qed.

Lemma substring_skip pre t m :
  String.substring (String.length pre) m (pre +:+ t) = String.substring 0 m t.
Proof. induction pre as [|c pre IH]; [done|]. simpl. exact IH. Qed.

Lemma length_append s t :
  String.length (s +:+ t) = (String.length s + String.length t)%nat.
Proof. induction s as [|c s IH]; [done|]. simpl. by rewrite IH. Qed.

Lemma after_last_slash_slashless n :
  strings.slashless n = true -> after_last_slash n = n.
Proof.
  intros Hn. unfold strings.LastIndex, strings.slice_from.
  rewrite LastIndex_from_slashless by done. simpl.
  rewrite Nat.sub_0_r. apply substring_all.
Qed.

Lemma after_last_slash_app pre n :
  strings.slashless n = true -> after_last_slash (pre +:+ String "/" n) = n.
Proof.
  intros Hn. unfold strings.LastIndex, strings.slice_from.
  rewrite LastIndex_from_app by done.
  replace (Z.to_nat (0 + Z.of_nat (String.length pre) + 1))
    with (String.length (pre +:+ "/")).
  2:{ rewrite length_append. simpl. lia. }
  replace (pre +:+ String "/" n) with ((pre +:+ "/") +:+ n).
  2:{ clear. induction pre as [|c pre IH]; [done|].
      change (String c ((pre +:+ "/") +:+ n) = String c (pre +:+ String "/" n)).
      by rewrite IH. }
  rewrite substring_skip. rewrite length_append.
  replace (String.length (pre +:+ "/") + String.length n
           - String.length (pre +:+ "/"))%nat with (String.length n) by lia.
  apply substring_all.
Qed.

(** Every string is slashless or ends, after a slash, with a slashless
    part. *)
Lemma last_slash_split s :
  strings.slashless s = true
  \/ exists pre n, s = pre +:+ String "/" n /\ strings.slashless n = true.
Proof.
  induction s as [|c s [Hs|(pre & n & -> & Hn)]]; [by left| |].
  - destruct (decide (c = "/"%char)) as [->|Hc].
    + right. by exists "", s.
    + left. by apply slashless_cons.
  - right. by exists (String c pre), n.
Qed.

Lemma TrimLeft_slashless n :
  strings.slashless n = true -> strings.TrimLeft (String "/" n) "/" = n.
Proof.
  intros Hn. cbn. destruct n as [|c n]; [done|].
  apply slashless_cons in Hn as [Hc _]. cbn.
  apply Ascii.eqb_neq in Hc. by rewrite Hc.
Qed.

(** X1. Whatever [generateContextID] returns without error is a slash
    followed by the part of the cgroup path (of the [PUID] when the event
    has no cgroup path) after its last slash; that part has no slash, and
    it is the process that [Stop] then takes as stopped. *)
Theorem generateContextID_last_component eventInfo contextID :
  generateContextID eventInfo = Ok contextID ->
  let source :=
    if decide (Cgroup eventInfo <> "") then Cgroup eventInfo
    else PUID eventInfo in
  exists n,
    contextID = "/" +:+ n
    /\ strings.slashless n = true
    /\ stopped_process contextID = n
    /\ (source = n \/ exists pre, source = pre +:+ "/" +:+ n).
Proof.
  intros Hg source.
  assert (exists n, after_last_slash source = n /\ strings.slashless n = true
                    /\ (source = n \/ exists pre, source = pre +:+ "/" +:+ n))
    as (n & Hlast & Hn & Hsrc).
  { destruct (last_slash_split source) as [Hs|(pre & n & Hs & Hn)].
    - exists source. split; [by apply after_last_slash_slashless|]. eauto.
    - exists n. rewrite Hs. split; [by apply after_last_slash_app|].
      split; [done|]. right. exists pre. done. }
  exists n. unfold generateContextID in Hg. subst source.
  destruct (decide (Cgroup eventInfo <> "")) as [Hc|Hc].
  - destruct (negb _); [done|]. rewrite Hlast in Hg.
    rewrite after_last_slash_slashless in Hg by done. injection Hg as <-.
    split; [done|]. split; [done|]. split; [|done].
    by apply TrimLeft_slashless.
  - rewrite Hlast in Hg. injection Hg as <-.
    split; [done|]. split; [done|]. split; [|done].
    by apply TrimLeft_slashless.
Qed.

(** X2. The release notice of the cgroup of a process, whose path is
    [/trireme/] followed by the name of the process, resolves to that
    process when the path is accepted and the name has no slash. *)
Theorem release_resolves_process eventInfo pid :
  Cgroup eventInfo = "/trireme/" +:+ pid ->
  regexp.regStop_Match (Cgroup eventInfo) = true ->
  strings.slashless pid = true ->
  generateContextID eventInfo = Ok ("/" +:+ pid)
  /\ stopped_process ("/" +:+ pid) = pid.
Proof.
  intros Hc Hm Hp. split; [|by apply TrimLeft_slashless].
  unfold generateContextID.
  destruct (decide (Cgroup eventInfo <> "")) as [_|Hne].
  2:{ exfalso. apply Hne. by rewrite Hc. }
  rewrite Hm. simpl. rewrite Hc.
  replace ("/trireme/" +:+ pid) with ("/trireme" +:+ String "/" pid) by done.
  rewrite after_last_slash_app by done.
  by rewrite after_last_slash_slashless.
Qed.

End LastComponent.

(** X1 at the release notice of the cgroup of process 7. *)
Lemma generateContextID_last_component_witness :
  generateContextID (mock.release "7") = Ok "/7"
  /\ exists n,
       "/7" = "/" +:+ n
       /\ strings.slashless n = true
       /\ stopped_process "/7" = n
       /\ ("/trireme/7" = n \/ exists pre, "/trireme/7" = pre +:+ "/" +:+ n).
Proof.
  split; [reflexivity|].
  exact (generateContextID_last_component (mock.release "7") "/7" eq_refl).
Defined.

(** X2 at process 1234. *)
Lemma release_resolves_process_witness :
  (Cgroup (mock.release "1234") = "/trireme/" +:+ "1234"
   /\ regexp.regStop_Match (Cgroup (mock.release "1234")) = true
   /\ strings.slashless "1234" = true)
  /\ generateContextID (mock.release "1234") = Ok ("/" +:+ "1234")
  /\ stopped_process ("/" +:+ "1234") = "1234".
Proof.
  split; [by repeat split|].
  exact (release_resolves_process (mock.release "1234") "1234"
           eq_refl eq_refl eq_refl).
Defined.

(** ** The processor, further *)

Section ProcessorFrames.
Context {E : Type}.
Context `{!cgnetcls.Cgroupnetcls E, !ProcessingUnitsHandler E,
          !RPCMetadataExtractor E, !EventCollector E}.
Variable storePath : string.
Variable add_replaces : bool.

Local Abbreviation UIDProcessor := (@uidmonitor.UIDProcessor E).

Ltac unfold_steps :=
  unfold netcls_Creategroup, netcls_AssignMark, netcls_AddProcess,
    netcls_DeleteCgroup, netcls_Deletebasepath, puHandler_SetPURuntime,
    puHandler_HandlePUEvent, s_metadataExtractor,
    collector_CollectContainerEvent, putoPidMap_Add, putoPidMap_Remove,
    pidToPU_Add, pidToPU_Remove, pidlist_insert, pidlist_delete,
    contextStore_StoreContext, contextStore_GetContextInfo,
    contextStore_RemoveContext, logged, or_return, warn, log, modify, get,
    on_env, on_fs, on_putoPidMap, on_pidToPU in *;
  unfold mbind, state_bind, mret, state_ret in *;
  unfold set_trace, set_env, set_fs, set_putoPidMap, set_pidToPU in *;
  simpl in *.


(** X4. A stop that leaves other members behind takes the process out
    of the member set and out of the index, deletes the cgroup of the
    process and returns what that deletion returns. The unit keeps its
    entry, the other units and the store are untouched, and the policy
    handler is not called. *)
Theorem Stop_keeps_unit_with_members eventInfo contextID ctx (s : UIDProcessor) :
  generateContextID eventInfo = Ok contextID ->
  contextID <> triremeBaseCgroup ->
  putoPidMap s !! resolved_unit contextID s = Some ctx ->
  pidlist ctx ∖ {[stopped_process contextID]} <> ∅ ->
  let pid := stopped_process contextID in
  let unit := resolved_unit contextID s in
  let r := (Stop storePath eventInfo s).1 in
  let s' := (Stop storePath eventInfo s).2 in
  r = (cgnetcls.DeleteCgroup pid (env s)).1
  /\ putoPidMap s' !! unit = Some (entry_delete pid ctx)
  /\ (forall other, other <> unit ->
        putoPidMap s' !! other = putoPidMap s !! other)
  /\ pidToPU s' = delete pid (pidToPU s)
  /\ fs s' = fs s
  /\ exists d,
       trace s' = trace s ++ d
       /\ d.*1 = [call.PidlistDelete unit pid; call.PidToPURemove pid;
                  call.DeleteCgroup pid]
       /\ filter is_HandlePUEvent d = [].
Proof.
  intros Hg Hb Hin Hne pid unit r s'. subst r s'.
  rewrite (Stop_member storePath _ contextID ctx) by done. simpl.
  split; [done|]. split; [apply lookup_insert_eq|].
  split; [intros other Ho; by apply lookup_insert_ne|].
  split; [apply cache_Remove_delete|]. split; [done|].
  eexists. split; [done|]. by split.
Qed.

(** X5. A start of a unit that is Active does not register the unit
    again: the store, the other units, and the runtime and the published
    identifier of the unit are untouched; the index changes at most for
    the process; and after the two insertions every call goes to the
    classifier, for the cgroup of the process. *)
Theorem Start_active_frame eventInfo entry (s : UIDProcessor) :
  putoPidMap s !! PUID eventInfo = Some entry ->
  let s' := (Start storePath add_replaces eventInfo s).2 in
  fs s' = fs s
  /\ (forall other, other <> PUID eventInfo ->
        putoPidMap s' !! other = putoPidMap s !! other)
  /\ (exists entry',
        putoPidMap s' !! PUID eventInfo = Some entry'
        /\ Info entry' = Info entry
        /\ publishedContextID entry' = publishedContextID entry)
  /\ (forall other, other <> PID eventInfo ->
        pidToPU s' !! other = pidToPU s !! other)
  /\ exists aerr d,
       trace s' = trace s
         ++ [(call.Start eventInfo, None);
             (call.PidlistInsert (PUID eventInfo) (PID eventInfo), None);
             (call.PidToPUAdd (PID eventInfo) (PUID eventInfo), aerr)]
         ++ d
       /\ Forall (fun c => classifier_call (PID eventInfo) c.1) d.
Proof.
  intros Hin s'. subst s'. rewrite (Start_active _ _ _ entry) by done.
  match goal with
  | |- context [processLinuxServiceStart eventInfo (Info entry) ?s1] =>
      destruct (processLinuxServiceStart_spec eventInfo (Info entry) s1)
        as (e & d & Hs & Hb); rewrite !Hs
  end.
  simpl. split; [done|].
  split; [intros other Ho; by apply lookup_insert_ne|].
  split; [eexists; split; [apply lookup_insert_eq|done]|].
  split.
  - intros other Ho.
    destruct (cache_Add_cases add_replaces (PID eventInfo) (PUID eventInfo)
                (pidToPU s)) as [->|[_ ->]]; [|done].
    by apply lookup_insert_ne.
  - eexists _, d. split; [by rewrite <- app_assoc|].
    inversion Hb; subst; repeat constructor.
Qed.


(** X7. The first loop of [ReSync] leaves the two caches and the store
    as they are, and the only calls it makes are deletions of cgroups of
    the list it is given. *)
Theorem collect_marks_only_deletes cgroups marktoPID (s : UIDProcessor) :
  let s' := (collect_marks cgroups marktoPID s).2 in
  same_tables s s'
  /\ exists d,
       trace s' = trace s ++ d
       /\ Forall (fun c => exists cgroup,
                     cgroup ∈ cgroups /\ c.1 = call.DeleteCgroup cgroup) d.
Proof.
  revert marktoPID s.
  induction cgroups as [|cgroup cgroups IH]; intros marktoPID s; simpl.
  { split; [done|]. exists []. by rewrite app_nil_r. }
  unfold_steps. destruct (decide _); simpl.
  - destruct (cgnetcls.DeleteCgroup cgroup (env s)) as [derr e']; simpl.
    match goal with
    | |- context [collect_marks cgroups marktoPID ?s1] =>
        destruct (IH marktoPID s1) as [(Hp & Hi & Hf) (d & Ht & Hd)]
    end.
    split; [done|].
    eexists ((call.DeleteCgroup cgroup, derr) :: d). split.
    + rewrite Ht. simpl. by rewrite <- app_assoc.
    + constructor.
      * exists cgroup. split; [left|done].
      * eapply Forall_impl; [exact Hd|].
        intros c (g & Hg & Hc). exists g. split; [by right|done].
  - match goal with
    | |- context [collect_marks cgroups ?m s] =>
        destruct (IH m s) as [Hsame (d & Ht & Hd)]
    end.
    split; [done|]. exists d. split; [done|].
    eapply Forall_impl; [exact Hd|].
    intros c (g & Hg & Hc). exists g. split; [by right|done].
Qed.


End ProcessorFrames.

(** ** What every Membership Entry satisfies *)

Lemma digits_nonneg s acc n :
  0 <= acc -> strconv.digits acc s = Some n -> 0 <= n.
Proof.
  revert acc. induction s as [|c s IH]; intros acc Hacc; simpl.
  { by intros [= <-]. }
  destruct (ascii.is_digit c) eqn:Hd; [|done].
  apply IH. unfold ascii.is_digit, ascii.between in Hd.
  apply andb_true_iff in Hd as [Hlo _]. apply N.leb_le in Hlo.
  unfold ascii.digit_val. lia.
Qed.

Lemma ParseUint32_range s m :
  strconv.ParseUint32 s = Ok m -> 0 <= m < 2 ^ 32.
Proof.
  unfold strconv.ParseUint32. destruct s as [|c s]; [done|].
  destruct (strconv.digits 0 (String c s)) as [n|] eqn:Hd; [|done].
  destruct (n <? 2 ^ 32) eqn:Hlt; [|done]. intros [= <-].
  apply Z.ltb_lt in Hlt. split; [|done]. by eapply digits_nonneg.
Qed.

Section UnitInvariants.
Context {E : Type}.
Context `{!cgnetcls.Cgroupnetcls E, !ProcessingUnitsHandler E,
          !RPCMetadataExtractor E, !EventCollector E}.
Variable storePath : string.
Variable add_replaces : bool.

Local Abbreviation UIDProcessor := (@uidmonitor.UIDProcessor E).

Section Preserved.
(** A property of the entries that the entry of a first start has, and
    that the insertion of a member and the deletion of a member other
    than the last keep. *)
Variable Q : string -> puToPidEntry -> Prop.
Hypothesis Q_first :
  forall eventInfo runtimeInfo m,
    strconv.ParseUint32 (CgroupMark (Options runtimeInfo)) = Ok m ->
    Q (PUID eventInfo) (first_entry eventInfo runtimeInfo).
Hypothesis Q_insert :
  forall unit entry pid, Q unit entry -> Q unit (entry_insert pid entry).
Hypothesis Q_delete :
  forall unit entry pid,
    Q unit entry -> pidlist entry ∖ {[pid]} <> ∅ ->
    Q unit (entry_delete pid entry).

Local Abbreviation units_hold s :=
  (forall unit entry, putoPidMap s !! unit = Some entry -> Q unit entry).

Lemma units_hold_tables (s s' : UIDProcessor) :
  putoPidMap s' = putoPidMap s -> units_hold s -> units_hold s'.
Proof. intros ->. auto. Qed.

Lemma units_hold_Start eventInfo (s : UIDProcessor) :
  units_hold s -> units_hold (Start storePath add_replaces eventInfo s).2.
Proof.
  intros Hs.
  destruct (putoPidMap s !! PUID eventInfo) as [entry|] eqn:Hu.
  - rewrite (Start_active _ _ _ entry) by done.
    match goal with
    | |- context [processLinuxServiceStart _ _ ?s1] =>
        destruct (processLinuxServiceStart_tables eventInfo (Info entry) s1)
          as (Hp & _ & _)
    end.
    intros unit entry'. rewrite Hp. simpl. rewrite lookup_insert.
    case_decide; [|by apply Hs]. subst unit. intros [= <-].
    by apply Q_insert, Hs.
  - destruct (Start_first_time storePath add_replaces eventInfo s Hu)
      as [(d & _ & (Hp & _ & _) & _)
         |(rt & m & n & aerr & Hm & _ & _ & Hp & _ & _)].
    + by eapply units_hold_tables.
    + intros unit entry'. rewrite Hp, lookup_insert.
      case_decide; [|by apply Hs]. subst unit. intros [= <-].
      by eapply Q_first.
Qed.

Lemma units_hold_Stop eventInfo (s : UIDProcessor) :
  units_hold s -> units_hold (Stop storePath eventInfo s).2.
Proof.
  intros Hs.
  destruct (generateContextID eventInfo) as [contextID|err] eqn:Hg.
  2:{ by rewrite (Stop_invalid storePath _ err). }
  destruct (decide (contextID = triremeBaseCgroup)) as [->|Hb].
  { by rewrite Stop_base by done. }
  destruct (putoPidMap s !! resolved_unit contextID s) as [ctx|] eqn:Hu.
  2:{ by rewrite (Stop_unknown storePath _ contextID). }
  destruct (decide (pidlist ctx ∖ {[stopped_process contextID]} = ∅))
    as [He|Hne].
  - rewrite (Stop_last storePath _ contextID ctx s) by done. simpl.
    intros unit entry Hl. apply lookup_delete_Some in Hl as [_ Hl].
    by apply Hs.
  - rewrite (Stop_member storePath _ contextID ctx s) by done. simpl.
    intros unit entry. rewrite lookup_insert.
    case_decide; [|by apply Hs]. subst unit. intros [= <-].
    apply Q_delete; [by apply Hs|done].
Qed.

Lemma units_hold_replay pids eventInfo (s : UIDProcessor) :
  units_hold s ->
  units_hold (replay storePath add_replaces pids eventInfo s).2.
Proof.
  revert eventInfo s.
  induction pids as [|pid pids IH]; intros eventInfo s Hs; [done|].
  rewrite replay_cons. apply IH. by apply units_hold_Start.
Qed.

Lemma units_hold_resync_one marktoPID contextID (s : UIDProcessor) :
  units_hold s ->
  units_hold (resync_one storePath add_replaces marktoPID contextID s).2.
Proof.
  intros Hs. rewrite resync_one_run.
  destruct (contextstore.GetContextInfo _ _ _).1 as [storedPU|err]; [|done].
  destruct (marktoPID !! MarkVal storedPU) as [pids|]; [|done].
  by apply units_hold_replay.
Qed.

Lemma units_hold_drain marktoPID walker (s : UIDProcessor) :
  units_hold s ->
  units_hold (drain storePath add_replaces marktoPID walker s).2.
Proof.
  revert s. induction walker as [|contextID walker IH]; intros s Hs; [done|].
  destruct (decide (contextID = "")) as [->|Hne]; [done|].
  rewrite drain_cons by done. apply IH. by apply units_hold_resync_one.
Qed.

Lemma units_hold_ReSync e (s : UIDProcessor) :
  units_hold s -> units_hold (ReSync storePath add_replaces e s).2.
Proof.
  intros Hs.
  destruct (contextstore.WalkStore storePath (fs s)) as [walker|err] eqn:Hw.
  - rewrite (ReSync_run _ _ _ walker) by done. simpl.
    apply units_hold_drain.
    match goal with
    | |- forall unit entry, putoPidMap (collect_marks ?c ?m s).2 !! _ = _ -> _ =>
        destruct (collect_marks_caches c m s) as [Hp _]
    end.
    by eapply units_hold_tables.
  - unfold ReSync. unfold mbind, state_bind, get; simpl. by rewrite Hw.
Qed.

Lemma units_hold_handler id event (s : UIDProcessor) :
  units_hold s -> units_hold (puHandler_HandlePUEvent id event s).2.
Proof.
  intros Hs. unfold puHandler_HandlePUEvent, logged, on_env, log, modify.
  unfold mbind, state_bind, mret, state_ret.
  by destruct (HandlePUEvent id event (env s)).
Qed.

Lemma units_hold_run o (s : UIDProcessor) :
  units_hold s -> units_hold (run storePath add_replaces o s).2.
Proof.
  intros Hs. destruct o as [e|e|e|e|e|e]; simpl.
  - by apply units_hold_handler.
  - by apply units_hold_Start.
  - by apply units_hold_Stop.
  - unfold Pause. destruct (generateContextID e) as [c|[msg]]; [|done].
    by apply units_hold_handler.
  - done.
  - by apply units_hold_ReSync.
Qed.

Lemma units_hold_reachable (s : UIDProcessor) :
  reachable storePath add_replaces s -> units_hold s.
Proof.
  induction 1 as [s Hp Hi|o s _ IH].
  - intros unit entry. by rewrite Hp, lookup_empty.
  - by apply units_hold_run.
Qed.

End Preserved.

(** X9. In every state that the processor reaches from empty caches, a
    unit that has a Membership Entry has at least one member: the entry
    goes when its last member goes. *)
Theorem reachable_units_have_members (s : UIDProcessor) :
  reachable storePath add_replaces s ->
  forall unit entry,
    putoPidMap s !! unit = Some entry -> pidlist entry <> ∅.
Proof.
  apply (units_hold_reachable (fun _ entry => pidlist entry <> ∅)).
  - intros eventInfo runtimeInfo m _. simpl. set_solver.
  - intros unit entry pid _. simpl. set_solver.
  - intros unit entry pid _ Hne. done.
Qed.

(** X10. In every state that the processor reaches from empty caches,
    the identifier under which a unit was published to the policy handler
    is the unit identifier followed by the mark of the runtime kept in
    its entry, and that mark is the decimal writing of a number of 32
    bits. *)
Theorem reachable_units_published (s : UIDProcessor) :
  reachable storePath add_replaces s ->
  forall unit entry,
    putoPidMap s !! unit = Some entry ->
    publishedContextID entry = unit +:+ CgroupMark (Options (Info entry))
    /\ exists m,
         strconv.ParseUint32 (CgroupMark (Options (Info entry))) = Ok m
         /\ 0 <= m < 2 ^ 32.
Proof.
  apply (units_hold_reachable
           (fun unit entry =>
              publishedContextID entry
              = unit +:+ CgroupMark (Options (Info entry))
              /\ exists m,
                   strconv.ParseUint32 (CgroupMark (Options (Info entry)))
                   = Ok m /\ 0 <= m < 2 ^ 32)).
  - intros eventInfo runtimeInfo m Hm. simpl. split; [done|].
    exists m. split; [done|]. by apply ParseUint32_range in Hm.
  - intros unit entry pid Hq. exact Hq.
  - intros unit entry pid Hq _. exact Hq.
Qed.

End UnitInvariants.

(** ** A unit with two processes *)





Section TwoProcesses.
Context {E : Type}.
Context `{!cgnetcls.Cgroupnetcls E, !ProcessingUnitsHandler E,
          !RPCMetadataExtractor E, !EventCollector E}.
Variable storePath : string.
Variable add_replaces : bool.

Local Abbreviation UIDProcessor := (@uidmonitor.UIDProcessor E).


End TwoProcesses.

(** ** The context store, further *)

Section StoreRoundTrip.
Context {T : Type}.
Variable storebasePath : string.

Local Abbreviation FS := (os.FS (contextstore.Data T)).
Local Abbreviation base := (os.Join [] storebasePath).
Local Abbreviation folder_of := (contextstore.folder_of storebasePath).
Local Abbreviation data_of contextID :=
  (os.Join (folder_of contextID) contextstore.eventInfoFile).

Lemma Join_eventInfoFile (folder : os.Path) :
  os.Join folder contextstore.eventInfoFile
  = folder ++ [contextstore.eventInfoFile].
Proof. reflexivity. Qed.

Lemma removelast_data contextID :
  removelast (data_of contextID) = folder_of contextID.
Proof. apply removelast_last. Qed.


Lemma exists_insert_file (q p : os.Path) (d : contextstore.Data T)
    dirs' (fs : FS) :
  os.dirs fs ⊆ dirs' ->
  os.exists_ q fs = true ->
  os.exists_ q {| os.dirs := dirs'; os.files := <[p := d]> (os.files fs) |}
  = true.
Proof.
  intros Hsub Hx. apply bool_decide_eq_true in Hx.
  apply bool_decide_eq_true. simpl. destruct Hx as [Hd|Hf].
  - left. by apply Hsub.
  - right. rewrite lookup_insert. by case_decide.
Qed.

(** What a write that succeeds leaves. *)
Lemma StoreContext_ok contextID (v : T) (fs : FS) :
  (contextstore.StoreContext storebasePath contextID v fs).1 = None ->
  exists dirs',
    (contextstore.StoreContext storebasePath contextID v fs).2
    = {| os.dirs := dirs';
         os.files := <[data_of contextID := contextstore.Json v]> (os.files fs) |}
    /\ os.dirs fs ⊆ dirs'
    /\ (os.exists_ (folder_of contextID) fs = true -> dirs' = os.dirs fs)
    /\ (folder_of contextID = [] \/ folder_of contextID ∈ dirs')
    /\ (data_of contextID ∉ dirs')
    /\ (forall q, q ∈ dirs' ->
          q ∈ os.dirs fs \/ q ∈ os.ancestors (folder_of contextID)).
Proof.
  unfold contextstore.StoreContext.
  unfold mbind, state_bind, mret, state_ret, get. cbv zeta.
  destruct (os.exists_ (folder_of contextID) fs) eqn:Hx.
  - unfold os.WriteFile. rewrite removelast_data.
    case_bool_decide as Hparent; [|done].
    case_bool_decide as Hdir; [done|]. simpl. intros _.
    exists (os.dirs fs). repeat split; try done. intros q Hq. by left.
  - unfold os.MkdirAll. case_bool_decide as Hfile; [done|].
    unfold os.WriteFile. rewrite removelast_data. simpl.
    case_bool_decide as Hparent; [|done].
    case_bool_decide as Hdir; [done|]. simpl. intros _.
    eexists. split; [done|]. split; [apply union_subseteq_l|].
    split; [done|]. split; [done|]. split; [done|].
    intros q Hq. apply elem_of_union in Hq as [Hq|Hq]; [by left|right].
    by apply elem_of_list_to_set in Hq.
Qed.





(** What [GetContextInfo] answers, by what the tree holds. *)
Lemma GetContextInfo_answer contextID (fs : FS) :
  (contextstore.GetContextInfo storebasePath contextID fs).1
  = if os.exists_ (folder_of contextID) fs then
      match os.files fs !! data_of contextID with
      | Some (contextstore.Json v) => Ok v
      | Some (contextstore.Invalid _) =>
          Err (New "invalid character looking for beginning of value")
      | None =>
          Err (New ("Unable to retrieve context from store "
                    +:+ "open: no such file or directory"))
      end
    else Err (New ("Unknown ContextID " +:+ contextID)).
Proof.
  unfold contextstore.GetContextInfo.
  unfold mbind, state_bind, mret, state_ret, get, os.ReadFile. cbv zeta.
  destruct (os.exists_ (folder_of contextID) fs) eqn:Hx; [|done].
  destruct (os.files fs !! data_of contextID) as [[v|raw]|]; [done| |done].
  simpl. by rewrite RemoveContext_present by done.
Qed.

Lemma data_of_below contextID other :
  ~ folder_of contextID `prefix_of` data_of other ->
  data_of contextID <> data_of other
  /\ ~ folder_of contextID `prefix_of` folder_of other.
Proof.
  intros Hn. split.
  - intros Heq. apply Hn. rewrite <- Heq. rewrite Join_eventInfoFile.
    by apply prefix_app_r.
  - intros Hp. apply Hn. rewrite Join_eventInfoFile. by apply prefix_app_r.
Qed.

(** X14. The records do not disturb each other. When the directory of
    [contextID] is neither the directory of [other] nor above it nor its
    data file, what [GetContextInfo] answers for [other] is the same
    after the record of [contextID] was removed, and, if [other] has a
    directory, after a record was written for [contextID]. *)
Theorem other_records_unaffected contextID other (v : T) (fs : FS) :
  ~ folder_of contextID `prefix_of` data_of other ->
  (contextstore.GetContextInfo storebasePath other
     (contextstore.RemoveContext storebasePath contextID fs).2).1
  = (contextstore.GetContextInfo storebasePath other fs).1
  /\ (os.exists_ (folder_of other) fs = true ->
      (contextstore.StoreContext storebasePath contextID v fs).1 = None ->
      (contextstore.GetContextInfo storebasePath other
         (contextstore.StoreContext storebasePath contextID v fs).2).1
      = (contextstore.GetContextInfo storebasePath other fs).1).
Proof.
  intros Hn. destruct (data_of_below contextID other Hn) as [Hdata Hfolder].
  split.
  - destruct (os.exists_ (folder_of contextID) fs) eqn:Hx.
    2:{ by rewrite RemoveContext_absent. }
    rewrite RemoveContext_present by done.
    rewrite !GetContextInfo_answer.
    rewrite exists_RemoveAll_beside by done.
    destruct (os.exists_ (folder_of other) fs); [|done].
    assert (os.files (os.RemoveAll (folder_of contextID) fs).2
              !! data_of other
            = os.files fs !! data_of other) as ->; [|done].
    unfold os.RemoveAll; simpl. rewrite map_lookup_filter.
    destruct (os.files fs !! data_of other) as [d|]; [|done]. simpl.
    by rewrite option_guard_True.
  - intros Hx Hok.
    destruct (StoreContext_ok contextID v fs Hok) as (dirs' & Hfs' & Hsub & _).
    rewrite !GetContextInfo_answer. rewrite Hfs'.
    rewrite exists_insert_file by done. rewrite Hx. simpl.
    by rewrite lookup_insert_ne.
Qed.

(** [child_of p q] gives the last component of [q] when the rest is
    [p]. *)
Lemma child_of_Some (p q : os.Path) n :
  os.child_of p q = Some n <-> q = p ++ [n].
Proof.
  revert q. induction p as [|a p IH]; intros q; simpl.
  - destruct q as [|b [|c q]]; split; intros Heq; by simplify_eq.
  - destruct q as [|b q]; [split; intros Heq; by simplify_eq|].
    case_decide as Hab.
    + subst b. rewrite IH. split; intros Heq; by simplify_eq.
    + split; intros Heq; by simplify_eq.
Qed.

Lemma children_exists (p : os.Path) n (fs : FS) :
  n ∈ os.children p fs <-> os.exists_ (p ++ [n]) fs = true.
Proof.
  unfold os.children, os.exists_. rewrite elem_of_set_omap.
  rewrite bool_decide_eq_true. split.
  - intros (q & Hq & Hc). apply child_of_Some in Hc as ->.
    apply elem_of_union in Hq as [Hq|Hq]; [by left|right].
    by apply elem_of_dom in Hq.
  - intros Hx. exists (p ++ [n]). split; [|by apply child_of_Some].
    apply elem_of_union. destruct Hx as [Hd|Hf]; [by left|right].
    by apply elem_of_dom.
Qed.

(** A walk of a store whose base path is a directory. *)
Lemma WalkStore_ok (fs : FS) :
  os.is_dir base fs = true ->
  exists names,
    contextstore.WalkStore storebasePath fs = Ok (names ++ [""])
    /\ NoDup names
    /\ forall n, n ∈ names <-> os.exists_ (base ++ [n]) fs = true.
Proof.
  intros Hd. unfold contextstore.WalkStore, os.ReadDir. rewrite Hd.
  eexists. split; [done|]. split.
  - rewrite merge_sort_Permutation. apply NoDup_elements.
  - intros n. rewrite merge_sort_Permutation, elem_of_elements.
    apply children_exists.
Qed.

(** X15. [WalkStore] fails exactly when the base path is not a
    directory. Otherwise the channel delivers, each once, the names of
    what is found directly under the base path, and then the empty
    string. *)
Theorem WalkStore_lists_children (fs : FS) :
  (os.is_dir base fs = false ->
   contextstore.WalkStore storebasePath fs = Err (New "Store is empty"))
  /\ (os.is_dir base fs = true ->
      exists names,
        contextstore.WalkStore storebasePath fs = Ok (names ++ [""])
        /\ NoDup names
        /\ forall n, n ∈ names <-> os.exists_ (base ++ [n]) fs = true).
Proof.
  split; [|apply WalkStore_ok].
  intros Hd. unfold contextstore.WalkStore, os.ReadDir. by rewrite Hd.
Qed.









End StoreRoundTrip.

(** ** What a start stores, a resynchronisation finds *)

Section StartRecord.
Context {E : Type}.
Context `{!cgnetcls.Cgroupnetcls E, !ProcessingUnitsHandler E,
          !RPCMetadataExtractor E, !EventCollector E}.
Variable storePath : string.
Variable add_replaces : bool.

Local Abbreviation UIDProcessor := (@uidmonitor.UIDProcessor E).


End StartRecord.

(** ** The CNI processor *)

Lemma substring_prefix n s :
  (n <= String.length s)%nat ->
  String.length (String.substring 0 n s) = n
  /\ exists rest, s = String.substring 0 n s +:+ rest.
Proof.
  revert s. induction n as [|n IH]; intros s Hn.
  { destruct s; (split; [done|]); eexists; reflexivity. }
  destruct s as [|c s]; simpl in Hn; [lia|].
  destruct (IH s) as (Hlen & rest & Hrest); [lia|].
  simpl. split; [by rewrite Hlen|]. exists rest.
  change (String c s = String c (String.substring 0 n s +:+ rest)).
  by rewrite <- Hrest.
Qed.

(** X20. The identifier that the CNI processor generates is the first
    twelve bytes of the [PUID]; a [PUID] of fewer bytes, and no other, is
    refused. *)
Theorem cni_generateContextID_prefix eventInfo :
  match cnimonitor.generateContextID eventInfo with
  | Ok contextID =>
      String.length contextID = 12%nat
      /\ exists rest, PUID eventInfo = contextID +:+ rest
  | Err _ => (String.length (PUID eventInfo) < 12)%nat
  end.
Proof.
  unfold cnimonitor.generateContextID.
  destruct (decide (PUID eventInfo = "")) as [->|_]; [simpl; lia|].
  destruct (Nat.ltb_spec (String.length (PUID eventInfo)) 12) as [Hlt|Hge];
    [done|].
  by apply substring_prefix.
Qed.

Section CniProperties.
Context {E : Type}.
Context `{!ProcessingUnitsHandler E, !RPCMetadataExtractor E,
          !EventCollector E}.

Local Abbreviation CniProcessor := (@cnimonitor.CniProcessor E).

Ltac unfold_cni :=
  unfold cnimonitor.logged, cnimonitor.or_return, cnimonitor.log,
    cnimonitor.on_env, cnimonitor.on_fs, modify, get in *;
  unfold mbind, state_bind, mret, state_ret in *;
  simpl in *.

(** X21. A start of the CNI processor writes the event to the store
    last, under the generated identifier, after extraction, registration
    under that identifier, activation and the telemetry record, each
    after the previous one succeeded; it returns what the write returns.
    A start that fails earlier returns the error and leaves the store as
    it was. *)
Theorem cni_Start_stores_last eventInfo (p : CniProcessor) :
  let r := (cnimonitor.Start eventInfo p).1 in
  let p' := (cnimonitor.Start eventInfo p).2 in
  (is_Some r /\ cnimonitor.fs p' = cnimonitor.fs p)
  \/ exists contextID runtimeInfo,
       cnimonitor.generateContextID eventInfo = Ok contextID
       /\ (r, cnimonitor.fs p')
          = contextstore.StoreContext cnimonitor.contextStorePath contextID
              eventInfo (cnimonitor.fs p)
       /\ cnimonitor.trace p'
          = cnimonitor.trace p
            ++ [(cnimonitor.call.Start eventInfo, None);
                (cnimonitor.call.MetadataExtractor eventInfo, None);
                (cnimonitor.call.SetPURuntime contextID runtimeInfo, None);
                (cnimonitor.call.HandlePUEvent contextID EventStart, None);
                (cnimonitor.call.CollectContainerEvent
                   {| collector.ContextID := contextID;
                      collector.IPAddress := fst (DefaultIPAddress runtimeInfo);
                      collector.Tags := policy.Tags runtimeInfo;
                      collector.Event := collector.ContainerStart |}, None);
                (cnimonitor.call.StoreContext contextID eventInfo, r)].
Proof.
  intros r p'. subst r p'. unfold cnimonitor.Start. unfold_cni.
  destruct (cnimonitor.generateContextID eventInfo) as [contextID|err] eqn:Hg;
    simpl; [|left; eauto].
  destruct (metadataExtractor eventInfo (cnimonitor.env p))
    as [[runtimeInfo|err] e1]; simpl; [|left; eauto].
  destruct (SetPURuntime contextID runtimeInfo e1) as [[err|] e2]; simpl;
    [left; eauto|].
  destruct (HandlePUEvent contextID EventStart e2) as [[err|] e3]; simpl;
    [left; eauto|].
  destruct (CollectContainerEvent _ e3) as [[] e4]; simpl.
  destruct (contextstore.StoreContext _ contextID eventInfo (cnimonitor.fs p))
    as [r f] eqn:Hw; simpl.
  right. exists contextID, runtimeInfo. split; [done|]. split; [done|].
  rewrite <- !app_assoc. reflexivity.
Qed.



(** One turn of the loop of [ReSync]. *)
Lemma cni_drain_cons contextID walker (p : CniProcessor) :
  contextID <> "" ->
  let got :=
    contextstore.GetContextInfo cnimonitor.contextStorePath
      ("/" +:+ contextID) (cnimonitor.fs p) in
  let p1 :=
    {| cnimonitor.fs := got.2; cnimonitor.env := cnimonitor.env p;
       cnimonitor.trace :=
         cnimonitor.trace p
         ++ [(cnimonitor.call.GetContextInfo ("/" +:+ contextID),
              error_of got.1)] |} in
  cnimonitor.drain (contextID :: walker) p
  = match got.1 with
    | Err _ => cnimonitor.drain walker p1
    | Ok eventInfo =>
        match (cnimonitor.Start eventInfo p1).1 with
        | Some (New msg) =>
            (Some (New ("error in processing existing data: " +:+ msg)),
             (cnimonitor.Start eventInfo p1).2)
        | None => cnimonitor.drain walker (cnimonitor.Start eventInfo p1).2
        end
    end.
Proof.
  intros Hne got p1. subst got p1. simpl.
  destruct (decide _) as [|_]; [done|]. unfold_cni.
  destruct (contextstore.GetContextInfo _ _ _) as [[eventInfo|err] f]; simpl;
    [|done].
  destruct (cnimonitor.Start eventInfo _) as [[[msg]|] p2]; done.
Qed.

(** X23. The loop of the CNI [ReSync] stops for good at the first start
    that fails: over the names [seen ++ rest], when the turns for [seen]
    end with an error, that error is returned and [rest] is not looked
    at; otherwise the loop goes on with [rest] from where [seen] left
    the processor. An error of the loop is always that of a start. *)
Theorem cni_ReSync_stops_at_first_error seen rest (p : CniProcessor) :
  "" ∉ seen ->
  let first := cnimonitor.drain seen p in
  cnimonitor.drain (seen ++ rest) p
  = match first.1 with
    | Some err => first
    | None => cnimonitor.drain rest first.2
    end
  /\ forall err,
       first.1 = Some err ->
       exists msg, err = New ("error in processing existing data: " +:+ msg).
Proof.
  revert p. induction seen as [|contextID seen IH]; intros p Hne first.
  { subst first. simpl. split; [done|]. intros err. discriminate. }
  apply not_elem_of_cons in Hne as [Hne Hrest]. subst first.
  change ((contextID :: seen) ++ rest) with (contextID :: seen ++ rest).
  rewrite !cni_drain_cons by done.
  destruct (contextstore.GetContextInfo _ _ _).1 as [eventInfo|gerr].
  - destruct (cnimonitor.Start eventInfo _).1 as [[msg]|] eqn:Hs.
    + simpl. split; [done|]. intros err [= <-]. eauto.
    + by apply IH.
  - by apply IH.
Qed.

(** X24. Without a directory at the base path of its store the CNI
    [ReSync] returns its error and does nothing; with one it walks the
    names found there. *)
Theorem cni_ReSync_needs_store e (p : CniProcessor) :
  (os.is_dir (os.Join [] cnimonitor.contextStorePath) (cnimonitor.fs p) = false ->
   cnimonitor.ReSync e p
   = (Some (New "error in accessing context store"), p))
  /\ (os.is_dir (os.Join [] cnimonitor.contextStorePath) (cnimonitor.fs p) = true ->
      exists names,
        cnimonitor.ReSync e p = cnimonitor.drain (names ++ [""]) p
        /\ NoDup names
        /\ forall n,
             n ∈ names
             <-> os.exists_ (os.Join [] cnimonitor.contextStorePath ++ [n])
                   (cnimonitor.fs p) = true).
Proof.
  unfold cnimonitor.ReSync. unfold mbind, state_bind, get.
  split; intros Hd.
  - unfold contextstore.WalkStore, os.ReadDir. by rewrite Hd.
  - destruct (WalkStore_ok cnimonitor.contextStorePath (cnimonitor.fs p) Hd)
      as (names & Hw & Hnd & Hnames).
    exists names. rewrite Hw. done.
Qed.

End CniProperties.

(** ** The services of the command line *)

Lemma parse_ports_ok ports acc services :
  systemdutil.parse_ports ports acc = Ok services ->
  exists new,
    services = acc ++ new
    /\ Forall2 (fun p s =>
             policy.Protocol s = 6
             /\ strconv.Atoi p = Ok (policy.Port s)
             /\ 0 <= policy.Port s <= 65535)
         ports new.
Proof.
  revert acc. induction ports as [|p ports IH]; intros acc; simpl.
  { intros [= <-]. exists []. by rewrite app_nil_r. }
  destruct (strconv.Atoi p) as [n|err] eqn:Hp; [|done].
  destruct ((n >? 65535) || (n <? 0)) eqn:Hr; [done|].
  apply orb_false_iff in Hr as [Hhi Hlo].
  assert (0 <= n <= 65535) as Hn by lia.
  intros Hrest. apply IH in Hrest as (new & -> & Hnew).
  eexists (_ :: new). split; [by rewrite <- app_assoc|].
  constructor; [|done]. simpl.
  rewrite Z.mod_small by lia. done.
Qed.

Lemma parse_ports_err ports acc err :
  systemdutil.parse_ports ports acc = Err err ->
  err = New "Invalid services"
  /\ Exists (fun p => forall n, strconv.Atoi p = Ok n -> ~ 0 <= n <= 65535)
       ports.
Proof.
  revert acc. induction ports as [|p ports IH]; intros acc; simpl; [done|].
  destruct (strconv.Atoi p) as [n|aerr] eqn:Hp.
  2:{ intros [= <-]. split; [done|]. left. intros n Hn. congruence. }
  destruct ((n >? 65535) || (n <? 0)) eqn:Hr.
  { intros [= <-]. split; [done|]. left. intros n' Hn' Hrange.
    assert (n' = n) as -> by congruence.
    apply orb_true_iff in Hr as [Hhi|Hlo]; lia. }
  intros Hrest. apply IH in Hrest as [-> Hex]. split; [done|]. by right.
Qed.

(** X25. When [ParseServices] succeeds it gives one service for each
    port, in order, the single port 0 when no port was given: each is a
    TCP service (protocol 6) whose port is the number that the string
    writes, between 0 and 65535, so the conversion to 16 bits loses
    nothing. *)
Theorem ParseServices_ok ports services :
  systemdutil.ParseServices ports = Ok services ->
  Forall2 (fun p s =>
             policy.Protocol s = 6
             /\ strconv.Atoi p = Ok (policy.Port s)
             /\ 0 <= policy.Port s <= 65535)
    (if decide (ports = []) then ["0"] else ports) services.
Proof.
  unfold systemdutil.ParseServices. intros Hp.
  apply parse_ports_ok in Hp as (new & -> & Hnew). simpl.
  destruct ports; simpl in *; done.
Qed.

(** X26. [ParseServices] fails exactly when one of the ports is not
    the writing of a number between 0 and 65535, and its error is always
    the same. *)
Theorem ParseServices_fails_iff ports :
  (forall err, systemdutil.ParseServices ports = Err err ->
               err = New "Invalid services")
  /\ ((exists err, systemdutil.ParseServices ports = Err err)
      <-> Exists (fun p => forall n, strconv.Atoi p = Ok n -> ~ 0 <= n <= 65535)
       ports).
Proof.
  unfold systemdutil.ParseServices. split.
  - intros err Hp. by apply parse_ports_err in Hp as [-> _].
  - split.
    + intros [err Hp]. apply parse_ports_err in Hp as [_ Hex].
      destruct ports; [|done]. simpl in Hex.
      apply Exists_cons in Hex as [Hzero|Hnil]; [|by apply Exists_nil in Hnil].
      exfalso. by apply (Hzero 0).
    + intros Hex.
      destruct (systemdutil.parse_ports _ []) as [services|err] eqn:Hp;
        [|eauto].
      exfalso. apply parse_ports_ok in Hp as (new & _ & Hnew).
      destruct ports as [|p ports]; [by apply Exists_nil in Hex|].
      simpl in Hnew. clear -Hex Hnew.
      induction Hnew as [|q s qs ss (_ & Hq & Hrange) _ IH].
      * by apply Exists_nil in Hex.
      * apply Exists_cons in Hex as [Hbad|Hex]; [|by apply IH].
        by apply (Hbad (policy.Port s)).
Qed.

(** ** What a start never takes away, and a stop never adds *)

Section Monotone.
Context {E : Type}.
Context `{!cgnetcls.Cgroupnetcls E, !ProcessingUnitsHandler E,
          !RPCMetadataExtractor E, !EventCollector E}.
Variable storePath : string.
Variable add_replaces : bool.

Local Abbreviation UIDProcessor := (@uidmonitor.UIDProcessor E).

(** From [s] to [s'] no unit, no member and no process of the index is
    lost, and no unit changes its runtime or its published identifier. *)
Local Abbreviation grows s s' :=
  ((forall unit entry,
       putoPidMap s !! unit = Some entry ->
       exists entry',
         putoPidMap s' !! unit = Some entry'
         /\ pidlist entry ⊆ pidlist entry'
         /\ Info entry' = Info entry
         /\ publishedContextID entry' = publishedContextID entry)
   /\ (forall pid, is_Some (pidToPU s !! pid) -> is_Some (pidToPU s' !! pid))).

(** From [s] to [s'] no unit, no member and no process of the index is
    gained. *)
Local Abbreviation shrinks s s' :=
  ((forall unit entry',
       putoPidMap s' !! unit = Some entry' ->
       exists entry,
         putoPidMap s !! unit = Some entry
         /\ pidlist entry' ⊆ pidlist entry)
   /\ (forall pid unit,
         pidToPU s' !! pid = Some unit -> pidToPU s !! pid = Some unit)).

Lemma grows_refl (s : UIDProcessor) : grows s s.
Proof. split; [|done]. intros unit entry Hu. by exists entry. Qed.

Lemma grows_tables (s s' : UIDProcessor) :
  putoPidMap s' = putoPidMap s -> pidToPU s' = pidToPU s -> grows s s'.
Proof.
  intros Hp Hi. rewrite Hp, Hi. split; [|done].
  intros unit entry Hu. by exists entry.
Qed.

Lemma grows_trans (s1 s2 s3 : UIDProcessor) :
  grows s1 s2 -> grows s2 s3 -> grows s1 s3.
Proof.
  intros [Hu12 Hi12] [Hu23 Hi23]. split; [|by auto].
  intros unit entry Hu.
  destruct (Hu12 _ _ Hu) as (e2 & Hu2 & Hm2 & Hr2 & Hp2).
  destruct (Hu23 _ _ Hu2) as (e3 & Hu3 & Hm3 & Hr3 & Hp3).
  exists e3. split; [done|]. split; [by etrans|]. split; congruence.
Qed.

Lemma Add_keeps (pid unit other : string) (c : gmap string string) :
  is_Some (c !! other) ->
  is_Some ((cache.Add add_replaces pid unit c).2 !! other).
Proof.
  intros Hother.
  destruct (cache_Add_cases add_replaces pid unit c) as [->|[_ ->]]; [|done].
  rewrite lookup_insert. by case_decide.
Qed.

Lemma grows_Start eventInfo (s : UIDProcessor) :
  grows s (Start storePath add_replaces eventInfo s).2.
Proof.
  destruct (putoPidMap s !! PUID eventInfo) as [entry|] eqn:Hu.
  - rewrite (Start_active _ _ _ entry) by done.
    match goal with
    | |- context [processLinuxServiceStart _ _ ?s1] =>
        destruct (processLinuxServiceStart_tables eventInfo (Info entry) s1)
          as (Hp & Hi & _)
    end.
    rewrite Hp, Hi. simpl. split.
    + intros unit e Hunit. rewrite lookup_insert. case_decide.
      * subst unit. rewrite Hu in Hunit. injection Hunit as <-.
        eexists. split; [done|]. simpl. split; [apply union_subseteq_r|done].
      * by exists e.
    + intros pid. apply Add_keeps.
  - destruct (Start_first_time storePath add_replaces eventInfo s Hu)
      as [(d & _ & (Hp & Hi & _) & _)
         |(rt & m & n & aerr & _ & _ & _ & Hp & Hi & _)].
    + by apply grows_tables.
    + rewrite Hp, Hi. split.
      * intros unit e Hunit. exists e. split; [|done].
        rewrite lookup_insert_ne; [done|]. congruence.
      * intros pid. apply Add_keeps.
Qed.

Lemma grows_replay pids eventInfo (s : UIDProcessor) :
  grows s (replay storePath add_replaces pids eventInfo s).2.
Proof.
  revert eventInfo s.
  induction pids as [|pid pids IH]; intros eventInfo s; [apply grows_refl|].
  rewrite replay_cons. eapply grows_trans; [apply grows_Start|apply IH].
Qed.

Lemma grows_resync_one marktoPID contextID (s : UIDProcessor) :
  grows s (resync_one storePath add_replaces marktoPID contextID s).2.
Proof.
  rewrite resync_one_run.
  destruct (contextstore.GetContextInfo _ _ _).1 as [storedPU|err];
    [|by apply grows_tables].
  destruct (marktoPID !! MarkVal storedPU) as [pids|];
    [|by apply grows_tables].
  eapply grows_trans; [|apply grows_replay]. by apply grows_tables.
Qed.

Lemma grows_drain marktoPID walker (s : UIDProcessor) :
  grows s (drain storePath add_replaces marktoPID walker s).2.
Proof.
  revert s. induction walker as [|contextID walker IH]; intros s;
    [apply grows_refl|].
  destruct (decide (contextID = "")) as [->|Hne]; [apply grows_refl|].
  rewrite drain_cons by done.
  eapply grows_trans; [apply grows_resync_one|apply IH].
Qed.

(** X27. [Start] and [ReSync] never take anything away from the caches:
    after either, every unit that had a Membership Entry still has one,
    with the same runtime and published identifier and with all the
    members it had, and every process that was in the index still is. *)
Theorem Start_and_ReSync_only_add eventInfo (s : UIDProcessor) :
  grows s (Start storePath add_replaces eventInfo s).2
  /\ grows s (ReSync storePath add_replaces eventInfo s).2.
Proof.
  split; [apply grows_Start|].
  destruct (contextstore.WalkStore storePath (fs s)) as [walker|err] eqn:Hw.
  - rewrite (ReSync_run _ _ _ walker) by done. simpl.
    eapply grows_trans; [|apply grows_drain].
    match goal with
    | |- context [collect_marks ?c ?m s] =>
        destruct (collect_marks_caches c m s) as [Hp Hi]
    end.
    by apply grows_tables.
  - unfold ReSync. unfold mbind, state_bind, get; simpl. rewrite Hw.
    apply grows_refl.
Qed.

(** X28. [Stop] never adds anything to the caches: after it, every unit
    with a Membership Entry had one before, with at least the same
    members, and every pair of the index was in the index before. *)
Theorem Stop_only_removes eventInfo (s : UIDProcessor) :
  shrinks s (Stop storePath eventInfo s).2.
Proof.
  assert (shrinks s s) as Hrefl.
  { split; [|done]. intros unit entry Hu. by exists entry. }
  destruct (generateContextID eventInfo) as [contextID|err] eqn:Hg.
  2:{ by rewrite (Stop_invalid storePath _ err). }
  destruct (decide (contextID = triremeBaseCgroup)) as [->|Hb].
  { rewrite Stop_base by done. exact Hrefl. }
  destruct (putoPidMap s !! resolved_unit contextID s) as [ctx|] eqn:Hu.
  2:{ by rewrite (Stop_unknown storePath _ contextID). }
  destruct (decide (pidlist ctx ∖ {[stopped_process contextID]} = ∅))
    as [He|Hne].
  - rewrite (Stop_last storePath _ contextID ctx s) by done. simpl. split.
    + intros unit entry' Hl. apply lookup_delete_Some in Hl as [_ Hl].
      by exists entry'.
    + intros pid unit. rewrite cache_Remove_delete.
      intros Hl. by apply lookup_delete_Some in Hl as [_ Hl].
  - rewrite (Stop_member storePath _ contextID ctx s) by done. simpl. split.
    + intros unit entry'. rewrite lookup_insert. case_decide.
      * subst unit. intros [= <-]. exists ctx. split; [done|]. simpl.
        apply subseteq_difference_l. done.
      * intros Hl. by exists entry'.
    + intros pid unit. rewrite cache_Remove_delete.
      intros Hl. by apply lookup_delete_Some in Hl as [_ Hl].
Qed.

End Monotone.

(** ** Further scenarios *)


(** X4 at a unit with the processes 7 and 8, when the cgroup of 7 is
    released. *)
Lemma Stop_keeps_unit_with_members_witness :
  let s :=
    (Start_ (mock.event "u1" "8")
       (Start_ (mock.event "u1" "7") (mock.fresh mock.never "100")).2).2 in
  let eventInfo := mock.release "7" in
  let ctx :=
    entry_insert "8" (first_entry (mock.event "u1" "7") (mock.with_mark "100")) in
  (generateContextID eventInfo = Ok "/7"
   /\ "/7" <> triremeBaseCgroup
   /\ putoPidMap s !! resolved_unit "/7" s = Some ctx
   /\ pidlist ctx ∖ {[stopped_process "/7"]} <> ∅)
  /\ putoPidMap (Stop_ eventInfo s).2 !! "u1" = Some (entry_delete "7" ctx)
  /\ pidToPU (Stop_ eventInfo s).2 = {["8" := "u1"]}
  /\ fs (Stop_ eventInfo s).2 = fs s.
Proof.
  cbv zeta.
  set (s := (Start_ (mock.event "u1" "8")
               (Start_ (mock.event "u1" "7")
                  (mock.fresh mock.never "100")).2).2).
  set (ctx := entry_insert "8"
                (first_entry (mock.event "u1" "7") (mock.with_mark "100"))).
  assert (generateContextID (mock.release "7") = Ok "/7") as Hg by reflexivity.
  assert ("/7" <> triremeBaseCgroup) as Hb by discriminate.
  assert (putoPidMap s !! resolved_unit "/7" s = Some ctx) as Hin
    by (vm_compute; reflexivity).
  assert (pidlist ctx ∖ {[stopped_process "/7"]} <> ∅) as Hne.
  { intros He. assert ("8" ∈ pidlist ctx ∖ {[stopped_process "/7"]}) as H8.
    { apply elem_of_difference. split.
      - simpl. apply elem_of_union. left. by apply elem_of_singleton.
      - intros H7. apply elem_of_singleton in H7. discriminate H7. }
    rewrite He in H8. by apply not_elem_of_empty in H8. }
  split; [by repeat split|].
  destruct (Stop_keeps_unit_with_members mock.storePath (mock.release "7")
              "/7" ctx s Hg Hb Hin Hne) as (_ & Hu & _ & Hi & Hf & _).
  split; [exact Hu|]. split; [|exact Hf].
  rewrite Hi. vm_compute. reflexivity.
Defined.

(** X5 at a second process for a unit that is Active. *)
Lemma Start_active_frame_witness :
  let s := (Start_ (mock.event "u1" "7") (mock.fresh mock.never "100")).2 in
  let eventInfo := mock.event "u1" "8" in
  let entry := first_entry (mock.event "u1" "7") (mock.with_mark "100") in
  putoPidMap s !! PUID eventInfo = Some entry
  /\ fs (Start_ eventInfo s).2 = fs s
  /\ pidToPU (Start_ eventInfo s).2 !! "7" = pidToPU s !! "7".
Proof.
  cbv zeta.
  set (s := (Start_ (mock.event "u1" "7") (mock.fresh mock.never "100")).2).
  set (entry := first_entry (mock.event "u1" "7") (mock.with_mark "100")).
  assert (putoPidMap s !! "u1" = Some entry) as Hin by (vm_compute; reflexivity).
  split; [exact Hin|].
  destruct (Start_active_frame mock.storePath false (mock.event "u1" "8")
              entry s Hin) as (Hf & _ & _ & Hi & _).
  split; [exact Hf|]. apply Hi. discriminate.
Defined.



(** X9 after a start. *)
Lemma reachable_units_have_members_witness :
  let s := (Start_ (mock.event "u1" "7") (mock.fresh mock.never "100")).2 in
  let entry := first_entry (mock.event "u1" "7") (mock.with_mark "100") in
  (reachable mock.storePath false s /\ putoPidMap s !! "u1" = Some entry)
  /\ pidlist entry <> ∅.
Proof.
  cbv zeta.
  set (s := (Start_ (mock.event "u1" "7") (mock.fresh mock.never "100")).2).
  assert (reachable mock.storePath false s) as Hr.
  { apply (reach_run mock.storePath false (OpStart (mock.event "u1" "7"))).
    apply reach_new; reflexivity. }
  assert (putoPidMap s !! "u1"
          = Some (first_entry (mock.event "u1" "7") (mock.with_mark "100")))
    as Hin by (vm_compute; reflexivity).
  split; [split; [exact Hr|exact Hin]|].
  exact (reachable_units_have_members mock.storePath false s Hr "u1" _ Hin).
Defined.

(** X10 after a start. *)
Lemma reachable_units_published_witness :
  let s := (Start_ (mock.event "u1" "7") (mock.fresh mock.never "100")).2 in
  let entry := first_entry (mock.event "u1" "7") (mock.with_mark "100") in
  (reachable mock.storePath false s /\ putoPidMap s !! "u1" = Some entry)
  /\ publishedContextID entry = "u1" +:+ CgroupMark (Options (Info entry))
  /\ exists m,
       strconv.ParseUint32 (CgroupMark (Options (Info entry))) = Ok m
       /\ 0 <= m < 2 ^ 32.
Proof.
  cbv zeta.
  set (s := (Start_ (mock.event "u1" "7") (mock.fresh mock.never "100")).2).
  assert (reachable mock.storePath false s) as Hr.
  { apply (reach_run mock.storePath false (OpStart (mock.event "u1" "7"))).
    apply reach_new; reflexivity. }
  assert (putoPidMap s !! "u1"
          = Some (first_entry (mock.event "u1" "7") (mock.with_mark "100")))
    as Hin by (vm_compute; reflexivity).
  split; [split; [exact Hr|exact Hin]|].
  exact (reachable_units_published mock.storePath false s Hr "u1" _ Hin).
Defined.




(** X14 at the records of two units: the record of u2 is read the
    same after the record of u1 was removed. *)
Lemma other_records_unaffected_witness :
  let v := record_of (mock.event "u1" "7") (mock.with_mark "100") in
  let w := record_of (mock.event "u2" "8") (mock.with_mark "200") in
  let fs :=
    (contextstore.StoreContext mock.storePath "u2" w
       (contextstore.StoreContext mock.storePath "u1" v mock.empty_fs).2).2 in
  ~ contextstore.folder_of mock.storePath "u1"
      `prefix_of` os.Join (contextstore.folder_of mock.storePath "u2")
                    contextstore.eventInfoFile
  /\ (contextstore.GetContextInfo mock.storePath "u2" fs).1 = Ok w
  /\ (contextstore.GetContextInfo mock.storePath "u2"
        (contextstore.RemoveContext mock.storePath "u1" fs).2).1
     = (contextstore.GetContextInfo mock.storePath "u2" fs).1.
Proof.
  cbv zeta.
  assert (~ contextstore.folder_of mock.storePath "u1"
            `prefix_of` os.Join (contextstore.folder_of mock.storePath "u2")
                          contextstore.eventInfoFile) as Hn.
  { intros [k Hk]. vm_compute in Hk. discriminate Hk. }
  split; [exact Hn|]. split; [vm_compute; reflexivity|].
  destruct (other_records_unaffected mock.storePath "u1" "u2"
              (record_of (mock.event "u1" "7") (mock.with_mark "100"))
              (contextstore.StoreContext mock.storePath "u2"
                 (record_of (mock.event "u2" "8") (mock.with_mark "200"))
                 (contextstore.StoreContext mock.storePath "u1"
                    (record_of (mock.event "u1" "7") (mock.with_mark "100"))
                    mock.empty_fs).2).2 Hn) as [Hremove _].
  exact Hremove.
Defined.

(** X15 at a store with the record of one unit. *)
Lemma WalkStore_lists_children_witness :
  let v := record_of (mock.event "u1" "7") (mock.with_mark "100") in
  let fs := (contextstore.StoreContext mock.storePath "u1" v mock.empty_fs).2 in
  os.is_dir (os.Join [] mock.storePath) fs = true
  /\ exists names,
       contextstore.WalkStore mock.storePath fs = Ok (names ++ [""])
       /\ NoDup names
       /\ forall n,
            n ∈ names
            <-> os.exists_ (os.Join [] mock.storePath ++ [n]) fs = true.
Proof.
  cbv zeta.
  assert (os.is_dir (os.Join [] mock.storePath)
            (contextstore.StoreContext mock.storePath "u1"
               (record_of (mock.event "u1" "7") (mock.with_mark "100"))
               mock.empty_fs).2 = true) as Hd by (vm_compute; reflexivity).
  split; [exact Hd|].
  destruct (WalkStore_lists_children mock.storePath
              (contextstore.StoreContext mock.storePath "u1"
                 (record_of (mock.event "u1" "7") (mock.with_mark "100"))
                 mock.empty_fs).2) as [_ Hwalk].
  exact (Hwalk Hd).
Defined.






(** X23 at a store with the record of one pod, when the policy handler
    refuses every event: the second name is not looked at. *)
Lemma cni_ReSync_stops_at_first_error_witness :
  let started :=
    (cnimonitor.Start (mock.event "0123456789abcdef" "")
       (mock.fresh_cni mock.never)).2 in
  let p :=
    {| cnimonitor.fs := cnimonitor.fs started;
       cnimonitor.env :=
         {| mock.fails := mock.policy_fails;
            mock.runtime := mock.with_mark "100"; mock.cgroups := ∅ |};
       cnimonitor.trace := [] |} in
  ("" ∉ ["0123456789ab"])
  /\ (cnimonitor.drain ["0123456789ab"] p).1
     = Some (New ("error in processing existing data: " +:+ "refused"))
  /\ cnimonitor.drain (["0123456789ab"] ++ ["other"]) p
     = cnimonitor.drain ["0123456789ab"] p.
Proof.
  cbv zeta.
  set (p := {| cnimonitor.fs := _; cnimonitor.env := _;
               cnimonitor.trace := [] |}).
  assert ("" ∉ ["0123456789ab"]) as Hne.
  { apply not_elem_of_cons. split; [discriminate|apply not_elem_of_nil]. }
  assert ((cnimonitor.drain ["0123456789ab"] p).1
          = Some (New ("error in processing existing data: " +:+ "refused")))
    as Herr by (vm_compute; reflexivity).
  split; [exact Hne|]. split; [exact Herr|].
  destruct (cni_ReSync_stops_at_first_error ["0123456789ab"] ["other"] p Hne)
    as [Hrun _].
  rewrite Hrun, Herr. reflexivity.
Defined.

(** X24 at a CNI processor whose store was never written. *)
Lemma cni_ReSync_needs_store_witness :
  let p := mock.fresh_cni mock.never in
  os.is_dir (os.Join [] cnimonitor.contextStorePath) (cnimonitor.fs p) = false
  /\ cnimonitor.ReSync (mock.event "" "") p
     = (Some (New "error in accessing context store"), p).
Proof.
  cbv zeta.
  assert (os.is_dir (os.Join [] cnimonitor.contextStorePath)
            (cnimonitor.fs (mock.fresh_cni mock.never)) = false) as Hd
    by (vm_compute; reflexivity).
  split; [exact Hd|].
  destruct (cni_ReSync_needs_store (mock.event "" "")
              (mock.fresh_cni mock.never)) as [Hno _].
  exact (Hno Hd).
Defined.

(** X25 at the ports 80 and 443. *)
Lemma ParseServices_ok_witness :
  let services :=
    [ {| policy.Protocol := 6; policy.Port := 80 |};
      {| policy.Protocol := 6; policy.Port := 443 |} ] in
  systemdutil.ParseServices ["80"; "443"] = Ok services
  /\ Forall2 (fun p s =>
                policy.Protocol s = 6
                /\ strconv.Atoi p = Ok (policy.Port s)
                /\ 0 <= policy.Port s <= 65535)
       ["80"; "443"] services.
Proof.
  cbv zeta. split; [reflexivity|].
  exact (ParseServices_ok ["80"; "443"] _ eq_refl).
Defined.
